(** * The Stripe-to-WooCommerce webhook bridge (src/server.js)

    A shallow embedding of the reconciliation logic of [server.js]: the two
    static lookup tables, the customer reconciler, the order builder, the
    subscription locator, the renewal processor and the webhook dispatcher.
    The two REST clients (Stripe and WooCommerce) are opaque collaborators:
    they are a record of operations over an abstract world, and every
    function of the bridge is written against that record. *)

From Stdlib Require Import String Ascii List ZArith Lia Bool.
Import ListNotations.

Local Open Scope string_scope.
Local Open Scope Z_scope.

(** ** JavaScript values and plain objects *)

Module Js.

(** The values that reach the places the program tests or compares: metadata
    values, the result of a table lookup.  [JProto name] is the member of
    [Object.prototype] called [name] (a function, or for [__proto__] the
    prototype object itself); every such member is truthy. *)
Inductive jsval : Type :=
| JUndefined
| JNull
| JBool (b : bool)
| JNum (n : Z)
| JStr (s : string)
| JProto (name : string).

Definition truthy (v : jsval) : bool :=
  match v with
  | JUndefined | JNull => false
  | JBool b => b
  | JNum n => negb (n =? 0)
  | JStr s => negb (s =? "")%string
  | JProto _ => true
  end.

(** [a || b] *)
Definition or_else (a b : jsval) : jsval := if truthy a then a else b.

(** [a === b] *)
Definition strict_eq (a b : jsval) : bool :=
  match a, b with
  | JUndefined, JUndefined | JNull, JNull => true
  | JBool x, JBool y => Bool.eqb x y
  | JNum x, JNum y => x =? y
  | JStr x, JStr y => (x =? y)%string
  | JProto x, JProto y => (x =? y)%string
  | _, _ => false
  end.

(** The names every object literal inherits from [Object.prototype]. *)
Definition object_prototype_keys : list string :=
  [ "constructor"; "__defineGetter__"; "__defineSetter__"; "hasOwnProperty";
    "__lookupGetter__"; "__lookupSetter__"; "isPrototypeOf";
    "propertyIsEnumerable"; "toString"; "valueOf"; "__proto__";
    "toLocaleString" ].

Definition mem (k : string) (ks : list string) : bool :=
  existsb (String.eqb k) ks.

Fixpoint own_property {A : Type} (obj : list (string * A)) (k : string) : option A :=
  match obj with
  | [] => None
  | (k', a) :: rest => if (k =? k')%string then Some a else own_property rest k
  end.

(** What [obj[k]] finds on an object literal [obj]: an own property, else a
    member inherited from [Object.prototype], else nothing ([undefined]). *)
Inductive property (A : Type) : Type :=
| Own (a : A)
| Inherited (name : string)
| Absent.
Arguments Own {A} a.
Arguments Inherited {A} name.
Arguments Absent {A}.

Definition get {A : Type} (obj : list (string * A)) (k : string) : property A :=
  match own_property obj k with
  | Some a => Own a
  | None => if mem k object_prototype_keys then Inherited k else Absent
  end.

(** [s.split(' ')[0]] *)
Fixpoint split_head (s : string) : string :=
  match s with
  | EmptyString => ""
  | String c rest => if Ascii.eqb c " " then "" else String c (split_head rest)
  end.

(** [s.split(' ').slice(1).join(' ')]: splitting and joining on the same
    separator gives back what follows the first space. *)
Fixpoint split_tail (s : string) : string :=
  match s with
  | EmptyString => ""
  | String c rest => if Ascii.eqb c " " then rest else split_tail rest
  end.

(** [s || ''] for an optional string *)
Definition or_empty (s : option string) : string :=
  match s with Some x => x | None => "" end.

(** Truthiness of an optional string: absent and [''] are falsy. *)
Definition present (s : option string) : bool :=
  match s with Some x => negb (x =? "")%string | None => false end.

(** What a template literal prints for a value that is a string, [null], or
    not there at all ([missing]: reading the field gives [undefined]). *)
Definition interpolate (s : option string) (missing : bool) : string :=
  match s with
  | Some x => x
  | None => if missing then "undefined" else "null"
  end.

(** [Array.prototype.sort] with a comparator: the sort is stable, and for a
    consistent comparator its result is the one of this insertion sort
    (an element stays in front of the later elements it compares equal to). *)
Section Sort.
Context {A : Type} (cmp : A -> A -> Z).

Fixpoint insert (x : A) (l : list A) : list A :=
  match l with
  | [] => [x]
  | y :: rest => if cmp x y <=? 0 then x :: y :: rest else y :: insert x rest
  end.

Definition sort (l : list A) : list A := fold_right insert [] l.
End Sort.

End Js.
Import Js.

(** ** The static tables *)

Record mapping : Type := {
  productId : Z;
  isSubscription : bool;
  subscriptionPeriod : option string
}.

Definition productMapping : list (string * mapping) :=
  [ ("price_123456789",
     {| productId := 123; isSubscription := true; subscriptionPeriod := Some "month" |});
    ("price_987654321",
     {| productId := 456; isSubscription := false; subscriptionPeriod := None |}) ].

Definition statusMap : list (string * string) :=
  [ ("active", "active");
    ("past_due", "on-hold");
    ("unpaid", "on-hold");
    ("canceled", "cancelled");
    ("incomplete", "pending");
    ("incomplete_expired", "cancelled");
    ("trialing", "active");
    ("paused", "on-hold") ].

(** [statusMap[stripeStatus]] as a JavaScript value *)
Definition statusMap_get (stripeStatus : string) : jsval :=
  match Js.get statusMap stripeStatus with
  | Own v => JStr v
  | Inherited name => JProto name
  | Absent => JUndefined
  end.

(** [const wooStatus = statusMap[stripeStatus] || 'on-hold'] *)
Definition wooStatus (stripeStatus : string) : jsval :=
  or_else (statusMap_get stripeStatus) (JStr "on-hold").

(** ** Records of the two systems *)

(** A metadata tag of a back-office record. *)
Record meta : Type := {
  key : string;
  value : jsval
}.

(** Processor side. *)
Record address : Type := {
  line1 : option string;
  line2 : option string;
  city : option string;
  state : option string;
  postal_code : option string;
  country : option string
}.

Record customerDetails : Type := {
  name : option string;
  email : option string;
  phone : option string;
  address_ : option address
}.

Record session : Type := {
  session_id : string;
  customer_details : option customerDetails;
  subscription : option string
}.

(** [item.price.id] and [item.quantity] of a checkout line item *)
Record lineItem : Type := {
  price_id : string;
  quantity : Z
}.

Record invoice : Type := {
  invoice_id : string;
  invoice_subscription : string;
  invoice_customer : string;
  invoice_status : string
}.

Record stripeSubscription : Type := {
  stripe_subscription_id : string;
  stripe_subscription_customer : string;
  stripe_subscription_status : string
}.

(** What [stripe.customers.retrieve] resolves to: a customer, whose email
    is a string or [null], or a deleted customer, an object without an
    [email] field.  [stripe_customer_email] is [None] in both cases without
    a string. *)
Record stripeCustomer : Type := {
  stripe_customer_email : option string;
  stripe_customer_deleted : bool
}.

(** Back-office side: what is sent. *)
Record postal : Type := {
  first_name : string;
  last_name : string;
  address_1 : string;
  address_2 : string;
  postal_city : string;
  postal_state : string;
  postcode : string;
  postal_country : string
}.

Record billing : Type := {
  billing_postal : postal;
  billing_email : option string;
  billing_phone : string
}.

Record customerData : Type := {
  customerData_email : option string;
  customerData_first_name : string;
  customerData_last_name : string;
  customerData_billing : billing;
  customerData_shipping : postal
}.

(** [product_id] is [None] when the expression it is computed from is
    [undefined]. *)
Record wooLineItem : Type := {
  product_id : option Z;
  wooLineItem_quantity : Z
}.

Record orderData : Type := {
  customer_id : Z;
  payment_method : string;
  payment_method_title : string;
  set_paid : bool;
  orderData_status : option string;
  orderData_billing : option billing;
  orderData_shipping : option postal;
  line_items : list wooLineItem;
  meta_data : list meta
}.

(** Back-office side: what comes back. *)
Record customer : Type := {
  customer_ident : Z;
  customer_email : string
}.

Record order : Type := {
  order_id : Z;
  order_status : string;
  order_line_items : list wooLineItem;
  order_meta_data : list meta
}.

Record subscriptionItem : Type := {
  item_product_id : Z;
  item_quantity : Z;
  item_name : string;
  item_total : string
}.

(** [date_created] holds the number [new Date(sub.date_created)] converts
    to. *)
Record wooSubscription : Type := {
  subscription_id : Z;
  subscription_customer : Z;
  subscription_status : string;
  date_created : Z;
  subscription_meta_data : option (list meta);
  subscription_line_items : list subscriptionItem
}.

(** ** The calls to the two systems *)

Inductive request : Type :=
| StripeListLineItems (sessionId : string)
| StripeRetrieveSubscription (id : string)
| StripeRetrieveCustomer (id : string)
| GetCustomers (email : option string)
| PostCustomers (data : customerData)
| PostOrders (data : orderData)
| PutOrder (orderId : Z) (meta_data : list meta)
| GetSubscriptions (customer : Z)
| PutSubscription (subscriptionId : Z) (status : jsval).

(** The write calls to the back-office system: every [post] and [put]. *)
Definition is_write (r : request) : bool :=
  match r with
  | PostCustomers _ | PostOrders _ | PutOrder _ _ | PutSubscription _ _ => true
  | _ => false
  end.

Definition writes (rs : list request) : list request := filter is_write rs.

(** What the program can throw: an [Error] it builds itself, a [TypeError]
    of the language, or the rejection of a client call (the message of the
    client's own error object). *)
Inductive exn : Type :=
| Thrown (message : string)
| TypeError (message : string)
| Upstream (message : string).

Definition message_of (e : exn) : string :=
  match e with Thrown m | TypeError m | Upstream m => m end.

(** The webhook request and the events it can carry. *)
Record webhookRequest : Type := {
  body : string;
  stripe_signature : option string
}.

Inductive event : Type :=
| CheckoutSessionCompleted (s : session)
| InvoicePaid (i : invoice)
| CustomerSubscriptionUpdated (s : stripeSubscription)
| CustomerSubscriptionDeleted (s : stripeSubscription)
| OtherEvent (type : string).

Inductive responseBody : Type :=
| Received
| WebhookError (text : string)
| FailedToProcess.

Record httpResponse : Type := {
  status_code : Z;
  response_body : responseBody
}.

(** The two clients.  Each call either rejects (with the message of the
    client's error) or resolves, and moves the world on.  A back-office list
    response may come without its [data]. *)
Record Services (W : Type) : Type := {
  constructEvent : webhookRequest -> string + event;
  listLineItems : string -> W -> (string + list lineItem) * W;
  retrieveSubscription : string -> W -> (string + stripeSubscription) * W;
  retrieveCustomer : string -> W -> (string + stripeCustomer) * W;
  getCustomers : option string -> W -> (string + option (list customer)) * W;
  postCustomers : customerData -> W -> (string + customer) * W;
  postOrders : orderData -> W -> (string + order) * W;
  putOrder : Z -> list meta -> W -> (string + order) * W;
  getSubscriptions : Z -> W -> (string + option (list wooSubscription)) * W;
  putSubscription : Z -> jsval -> W -> (string + wooSubscription) * W
}.
Arguments constructEvent {W} _ _.
Arguments listLineItems {W} _ _ _.
Arguments retrieveSubscription {W} _ _ _.
Arguments retrieveCustomer {W} _ _ _.
Arguments getCustomers {W} _ _ _.
Arguments postCustomers {W} _ _ _.
Arguments postOrders {W} _ _ _.
Arguments putOrder {W} _ _ _ _.
Arguments getSubscriptions {W} _ _ _.
Arguments putSubscription {W} _ _ _ _.

(** ** Asynchronous code: world, outcome and the calls made

    An [async] function is a function of the world that returns what it
    resolved or rejected with, the world it left, and the calls it made to
    the two systems, in order.  [await] of a client call is one step. *)

Record outcome (W A : Type) : Type := {
  result : exn + A;
  world : W;
  calls : list request
}.
Arguments result {W A} _.
Arguments world {W A} _.
Arguments calls {W A} _.

Definition M (W A : Type) : Type := W -> outcome W A.

Definition ret {W A : Type} (a : A) : M W A :=
  fun w => {| result := inr a; world := w; calls := [] |}.

Definition throw {W A : Type} (e : exn) : M W A :=
  fun w => {| result := inl e; world := w; calls := [] |}.

Definition bind {W A B : Type} (m : M W A) (f : A -> M W B) : M W B :=
  fun w =>
    let o := m w in
    match result o with
    | inl e => {| result := inl e; world := world o; calls := calls o |}
    | inr a =>
        let o' := f a (world o) in
        {| result := result o'; world := world o'; calls := (calls o ++ calls o')%list |}
    end.

(** [try { body } catch (error) { handler }] *)
Definition try_catch {W A : Type} (body : M W A) (handler : exn -> M W A) : M W A :=
  fun w =>
    let o := body w in
    match result o with
    | inl e =>
        let o' := handler e (world o) in
        {| result := result o'; world := world o'; calls := (calls o ++ calls o')%list |}
    | inr a => o
    end.

(** [await client.call(...)], recorded as the request [r] *)
Definition await {W A : Type} (r : request) (op : W -> (string + A) * W) : M W A :=
  fun w =>
    let '(res, w') := op w in
    {| result := match res with inl m => inl (Upstream m) | inr a => inr a end;
       world := w';
       calls := [r] |}.

(** A value that is already settled: resolved or rejected. *)
Definition settle {W A : Type} (r : exn + A) : M W A :=
  match r with inl e => throw e | inr a => ret a end.

Declare Scope async_scope.
Delimit Scope async_scope with async.
Notation "x <- m ;; k" := (bind m (fun x => k))
  (at level 100, m at next level, right associativity) : async_scope.
Local Open Scope async_scope.

(** [Promise.all] over promises that are all settled when it is called: it
    rejects with the first rejected one, in the order of the array. *)
Fixpoint promise_all {A : Type} (ps : list (exn + A)) : exn + list A :=
  match ps with
  | [] => inr []
  | inl e :: _ => inl e
  | inr a :: rest =>
      match promise_all rest with
      | inl e => inl e
      | inr l => inr (a :: l)
      end
  end.

(** ** The bridge *)

(** The name and address fields sent with a customer or an order, each
    defaulting to [''] *)
Definition first_name_of (d : customerDetails) : string :=
  if present (name d) then split_head (or_empty (name d)) else "".

Definition last_name_of (d : customerDetails) : string :=
  if present (name d) then split_tail (or_empty (name d)) else "".

Definition address_field (d : customerDetails) (f : address -> option string) : string :=
  match address_ d with
  | Some a => or_empty (f a)
  | None => ""
  end.

Definition postal_of (d : customerDetails) : postal :=
  {| first_name := first_name_of d;
     last_name := last_name_of d;
     address_1 := address_field d line1;
     address_2 := address_field d line2;
     postal_city := address_field d city;
     postal_state := address_field d state;
     postcode := address_field d postal_code;
     postal_country := address_field d country |}.

Definition billing_of (d : customerDetails) : billing :=
  {| billing_postal := postal_of d;
     billing_email := email d;
     billing_phone := or_empty (phone d) |}.

Definition customerData_of (d : customerDetails) : customerData :=
  {| customerData_email := email d;
     customerData_first_name := first_name_of d;
     customerData_last_name := last_name_of d;
     customerData_billing := billing_of d;
     customerData_shipping := postal_of d |}.

(** The callback of [lineItems.data.map] in [createWooOrder]: an [async]
    function without [await], so its promise is settled when it returns.
    A price id that names a member of [Object.prototype] finds that member:
    the lookup is truthy and its [productId] is [undefined]. *)
Definition toWooLineItem (item : lineItem) : exn + wooLineItem :=
  match Js.get productMapping (price_id item) with
  | Absent =>
      inl (Thrown ("No product mapping found for Stripe price ID: " ++ price_id item))
  | Own m =>
      inr {| product_id := Some (productId m); wooLineItem_quantity := quantity item |}
  | Inherited _ =>
      inr {| product_id := None; wooLineItem_quantity := quantity item |}
  end.

(** [mapping && mapping.isSubscription] *)
Definition isSubscriptionItem (item : lineItem) : bool :=
  match Js.get productMapping (price_id item) with
  | Own m => isSubscription m
  | Inherited _ => false
  | Absent => false
  end.

Definition checkoutOrderData (s : session) (d : customerDetails)
    (wooLineItems : list wooLineItem) (customerId : Z) : orderData :=
  {| customer_id := customerId;
     payment_method := "stripe";
     payment_method_title := "Stripe";
     set_paid := true;
     orderData_status := None;
     orderData_billing := Some (billing_of d);
     orderData_shipping := Some (postal_of d);
     line_items := wooLineItems;
     meta_data := [ {| key := "stripe_checkout_id"; value := JStr (session_id s) |} ] |}.

Definition subscriptionTag (id : string) : meta :=
  {| key := "stripe_subscription_id"; value := JStr id |}.

Definition renewalLineItem (item : subscriptionItem) : wooLineItem :=
  {| product_id := Some (item_product_id item);
     wooLineItem_quantity := item_quantity item |}.

Definition renewalOrderData (inv : invoice) (sub : stripeSubscription)
    (customerId : Z) (woo : wooSubscription) : orderData :=
  {| customer_id := customerId;
     payment_method := "stripe";
     payment_method_title := "Stripe";
     set_paid := true;
     orderData_status := Some "processing";
     orderData_billing := None;
     orderData_shipping := None;
     line_items := map renewalLineItem (subscription_line_items woo);
     meta_data :=
       [ {| key := "stripe_invoice_id"; value := JStr (invoice_id inv) |};
         {| key := "stripe_subscription_id"; value := JStr (stripe_subscription_id sub) |};
         {| key := "is_renewal"; value := JStr "true" |} ] |}.

(** The callback of [find] in [findWooSubscription] *)
Definition hasSubscriptionTag (stripeSubscriptionId : string) (sub : wooSubscription) : bool :=
  match subscription_meta_data sub with
  | None => false
  | Some metas =>
      existsb (fun m => (key m =? "stripe_subscription_id")%string
                        && strict_eq (value m) (JStr stripeSubscriptionId)) metas
  end.

Definition isActive (sub : wooSubscription) : bool :=
  (subscription_status sub =? "active")%string.

(** [(a, b) => new Date(b.date_created) - new Date(a.date_created)] *)
Definition byDateDescending (a b : wooSubscription) : Z :=
  date_created b - date_created a.

Definition ok : httpResponse := {| status_code := 200; response_body := Received |}.

Definition badRequest (message : string) : httpResponse :=
  {| status_code := 400; response_body := WebhookError ("Webhook Error: " ++ message) |}.

Definition serverError : httpResponse :=
  {| status_code := 500; response_body := FailedToProcess |}.

Section Bridge.
Context {W : Type} (svc : Services W).

(** Every [catch] block of the handlers logs and throws the error again. *)
Definition rethrow {A : Type} (error : exn) : M W A := throw error.

Definition updateWooSubscriptionStatus (subscriptionId : Z) (stripeStatus : string)
    : M W wooSubscription :=
  let wooStatus := wooStatus stripeStatus in
  try_catch
    (response <- await (PutSubscription subscriptionId wooStatus)
                       (putSubscription svc subscriptionId wooStatus) ;;
     ret response)
    rethrow.

Definition findWooSubscription (stripeSubscriptionId : string) (customerId : Z)
    : M W (option wooSubscription) :=
  try_catch
    (subscriptionsResponse <- await (GetSubscriptions customerId)
                                    (getSubscriptions svc customerId) ;;
     match subscriptionsResponse with
     | Some ((_ :: _) as data) =>
         match find (hasSubscriptionTag stripeSubscriptionId) data with
         | Some subscription => ret (Some subscription)
         | None =>
             match Js.sort byDateDescending (filter isActive data) with
             | first :: _ => ret (Some first)
             | [] => ret None
             end
         end
     | Some [] => ret None
     | None => ret None
     end)
    rethrow.

Definition findWooCustomerByEmail (email : option string) : M W (option customer) :=
  try_catch
    (response <- await (GetCustomers email) (getCustomers svc email) ;;
     match response with
     | Some (first :: _) => ret (Some first)
     | Some [] => ret None
     | None => ret None
     end)
    rethrow.

Definition getOrCreateWooCustomer (customerDetails : option customerDetails)
    : M W customer :=
  match customerDetails with
  | None => throw (Thrown "Customer email is required")
  | Some d =>
      if negb (present (email d)) then throw (Thrown "Customer email is required")
      else
        try_catch
          (existingCustomers <- await (GetCustomers (email d)) (getCustomers svc (email d)) ;;
           match existingCustomers with
           | Some (first :: _) => ret first
           | _ =>
               let customerData := customerData_of d in
               response <- await (PostCustomers customerData)
                                 (postCustomers svc customerData) ;;
               ret response
           end)
          rethrow
  end.

Definition createWooOrder (s : session) (lineItems : list lineItem) (customerId : Z)
    : M W order :=
  try_catch
    (wooLineItems <- settle (promise_all (map toWooLineItem lineItems)) ;;
     match customer_details s with
     | None => throw (TypeError "Cannot read properties of null (reading 'name')")
     | Some d =>
         let orderData := checkoutOrderData s d wooLineItems customerId in
         response <- await (PostOrders orderData) (postOrders svc orderData) ;;
         let hasSubscription := existsb isSubscriptionItem lineItems in
         if hasSubscription && present (subscription s) then
           let meta_data :=
             (order_meta_data response ++ [subscriptionTag (or_empty (subscription s))])%list in
           _ <- await (PutOrder (order_id response) meta_data)
                      (putOrder svc (order_id response) meta_data) ;;
           ret response
         else ret response
     end)
    rethrow.

(** Resolves to [None] for [undefined] (the early [return]). *)
Definition processSubscriptionRenewal (inv : invoice) (sub : stripeSubscription)
    (customerId : Z) : M W (option order) :=
  try_catch
    (wooSubscription <- findWooSubscription (stripe_subscription_id sub) customerId ;;
     match wooSubscription with
     | None => ret None
     | Some woo =>
         let renewalOrderData := renewalOrderData inv sub customerId woo in
         response <- await (PostOrders renewalOrderData)
                           (postOrders svc renewalOrderData) ;;
         _ <- updateWooSubscriptionStatus (subscription_id woo) "active" ;;
         ret (Some response)
     end)
    rethrow.

Definition noCustomer (stripeCustomer : stripeCustomer) : exn :=
  Thrown ("No WooCommerce customer found for email: "
          ++ interpolate (stripe_customer_email stripeCustomer)
                         (stripe_customer_deleted stripeCustomer)).

Definition handleCheckoutCompleted (s : session) : M W unit :=
  try_catch
    (lineItems <- await (StripeListLineItems (session_id s))
                        (listLineItems svc (session_id s)) ;;
     customer <- getOrCreateWooCustomer (customer_details s) ;;
     _ <- createWooOrder s lineItems (customer_ident customer) ;;
     ret tt)
    rethrow.

Definition handleInvoicePaid (inv : invoice) : M W unit :=
  try_catch
    (subscription <- await (StripeRetrieveSubscription (invoice_subscription inv))
                           (retrieveSubscription svc (invoice_subscription inv)) ;;
     stripeCustomer <- await (StripeRetrieveCustomer (invoice_customer inv))
                             (retrieveCustomer svc (invoice_customer inv)) ;;
     customer <- findWooCustomerByEmail (stripe_customer_email stripeCustomer) ;;
     match customer with
     | None => throw (noCustomer stripeCustomer)
     | Some customer =>
         _ <- processSubscriptionRenewal inv subscription (customer_ident customer) ;;
         ret tt
     end)
    rethrow.

Definition handleSubscriptionUpdated (sub : stripeSubscription) : M W unit :=
  try_catch
    (stripeCustomer <- await (StripeRetrieveCustomer (stripe_subscription_customer sub))
                             (retrieveCustomer svc (stripe_subscription_customer sub)) ;;
     customer <- findWooCustomerByEmail (stripe_customer_email stripeCustomer) ;;
     match customer with
     | None => throw (noCustomer stripeCustomer)
     | Some customer =>
         wooSubscription <- findWooSubscription (stripe_subscription_id sub)
                                                (customer_ident customer) ;;
         match wooSubscription with
         | None => ret tt
         | Some woo =>
             _ <- updateWooSubscriptionStatus (subscription_id woo)
                                              (stripe_subscription_status sub) ;;
             ret tt
         end
     end)
    rethrow.

Definition handleSubscriptionCancelled (sub : stripeSubscription) : M W unit :=
  try_catch
    (stripeCustomer <- await (StripeRetrieveCustomer (stripe_subscription_customer sub))
                             (retrieveCustomer svc (stripe_subscription_customer sub)) ;;
     customer <- findWooCustomerByEmail (stripe_customer_email stripeCustomer) ;;
     match customer with
     | None => throw (noCustomer stripeCustomer)
     | Some customer =>
         wooSubscription <- findWooSubscription (stripe_subscription_id sub)
                                                (customer_ident customer) ;;
         match wooSubscription with
         | None => ret tt
         | Some woo =>
             _ <- updateWooSubscriptionStatus (subscription_id woo) "cancelled" ;;
             ret tt
         end
     end)
    rethrow.

(** The [switch] on [event.type] *)
Definition dispatch (ev : event) : M W unit :=
  match ev with
  | CheckoutSessionCompleted s => handleCheckoutCompleted s
  | InvoicePaid i => handleInvoicePaid i
  | CustomerSubscriptionUpdated s => handleSubscriptionUpdated s
  | CustomerSubscriptionDeleted s => handleSubscriptionCancelled s
  | OtherEvent _ => ret tt
  end.

(** [app.post('/stripe-webhook', ...)] *)
Definition stripeWebhook (req : webhookRequest) : M W httpResponse :=
  match constructEvent svc req with
  | inl message => ret (badRequest message)
  | inr ev =>
      try_catch
        (_ <- dispatch ev ;; ret ok)
        (fun _ => ret serverError)
  end.

End Bridge.

(** ** A reference back office

    An in-memory implementation of the two clients, used to run the bridge
    on concrete events: customers are matched by email, a created record
    gets the next free id and echoes what was sent, an amend replaces the
    metadata of the order it names. *)

Module Demo.

Record shop : Type := {
  shop_customers : list customer;
  shop_subscriptions : list wooSubscription;
  shop_orders : list order;
  next_id : Z;
  stripe_customers : list (string * stripeCustomer);
  stripe_subscriptions : list (string * stripeSubscription);
  stripe_line_items : list (string * list lineItem)
}.

Definition with_customers (w : shop) (cs : list customer) (n : Z) : shop :=
  {| shop_customers := cs;
     shop_subscriptions := shop_subscriptions w;
     shop_orders := shop_orders w;
     next_id := n;
     stripe_customers := stripe_customers w;
     stripe_subscriptions := stripe_subscriptions w;
     stripe_line_items := stripe_line_items w |}.

Definition with_orders (w : shop) (os : list order) (n : Z) : shop :=
  {| shop_customers := shop_customers w;
     shop_subscriptions := shop_subscriptions w;
     shop_orders := os;
     next_id := n;
     stripe_customers := stripe_customers w;
     stripe_subscriptions := stripe_subscriptions w;
     stripe_line_items := stripe_line_items w |}.

Definition with_subscriptions (w : shop) (ss : list wooSubscription) : shop :=
  {| shop_customers := shop_customers w;
     shop_subscriptions := ss;
     shop_orders := shop_orders w;
     next_id := next_id w;
     stripe_customers := stripe_customers w;
     stripe_subscriptions := stripe_subscriptions w;
     stripe_line_items := stripe_line_items w |}.

Definition lookup {A : Type} (what : string) (table : list (string * A)) (id : string)
    (w : shop) : (string + A) * shop :=
  match own_property table id with
  | Some a => (inr a, w)
  | None => (inl ("No such " ++ what ++ ": " ++ id), w)
  end.

Definition demo_getCustomers (email : option string) (w : shop)
    : (string + option (list customer)) * shop :=
  (inr (Some (filter (fun c => match email with
                               | Some e => (customer_email c =? e)%string
                               | None => true
                               end) (shop_customers w))), w).

Definition demo_postCustomers (data : customerData) (w : shop) : (string + customer) * shop :=
  let c := {| customer_ident := next_id w;
              customer_email := or_empty (customerData_email data) |} in
  (inr c, with_customers w (shop_customers w ++ [c])%list (next_id w + 1)).

Definition demo_postOrders (data : orderData) (w : shop) : (string + order) * shop :=
  let o := {| order_id := next_id w;
              order_status := match orderData_status data with
                              | Some s => s
                              | None => "processing"
                              end;
              order_line_items := line_items data;
              order_meta_data := meta_data data |} in
  (inr o, with_orders w (shop_orders w ++ [o])%list (next_id w + 1)).

Definition amend (id : Z) (metas : list meta) (o : order) : order :=
  if order_id o =? id then
    {| order_id := order_id o;
       order_status := order_status o;
       order_line_items := order_line_items o;
       order_meta_data := metas |}
  else o.

Definition demo_putOrder (id : Z) (metas : list meta) (w : shop) : (string + order) * shop :=
  match find (fun o => order_id o =? id) (shop_orders w) with
  | Some o => (inr (amend id metas o), with_orders w (map (amend id metas) (shop_orders w)) (next_id w))
  | None => (inl "Invalid ID.", w)
  end.

Definition demo_getSubscriptions (customerId : Z) (w : shop)
    : (string + option (list wooSubscription)) * shop :=
  (inr (Some (filter (fun s => subscription_customer s =? customerId)
                     (shop_subscriptions w))), w).

Definition restatus (id : Z) (status : jsval) (s : wooSubscription) : wooSubscription :=
  if subscription_id s =? id then
    {| subscription_id := subscription_id s;
       subscription_customer := subscription_customer s;
       subscription_status := match status with
                              | JStr st => st
                              | _ => subscription_status s
                              end;
       date_created := date_created s;
       subscription_meta_data := subscription_meta_data s;
       subscription_line_items := subscription_line_items s |}
  else s.

Definition demo_putSubscription (id : Z) (status : jsval) (w : shop)
    : (string + wooSubscription) * shop :=
  match find (fun s => subscription_id s =? id) (shop_subscriptions w) with
  | Some s => (inr (restatus id status s),
               with_subscriptions w (map (restatus id status) (shop_subscriptions w)))
  | None => (inl "Invalid ID.", w)
  end.

(** The signature check accepts the one signature ["valid"]; the payloads
    it knows are those of [events]. *)
Definition demo_constructEvent (events : list (string * event)) (req : webhookRequest)
    : string + event :=
  match stripe_signature req with
  | None => inl "No stripe-signature header value was provided."
  | Some sig =>
      if (sig =? "valid")%string then
        match own_property events (body req) with
        | Some ev => inr ev
        | None => inl "Unexpected end of JSON input"
        end
      else inl "No signatures found matching the expected signature for payload."
  end.

Definition services (events : list (string * event)) : Services shop :=
  {| constructEvent := demo_constructEvent events;
     listLineItems := fun id w => lookup "session" (stripe_line_items w) id w;
     retrieveSubscription := fun id w => lookup "subscription" (stripe_subscriptions w) id w;
     retrieveCustomer := fun id w => lookup "customer" (stripe_customers w) id w;
     getCustomers := demo_getCustomers;
     postCustomers := demo_postCustomers;
     postOrders := demo_postOrders;
     putOrder := demo_putOrder;
     getSubscriptions := demo_getSubscriptions;
     putSubscription := demo_putSubscription |}.

(** One customer, [a@example.com], with two subscriptions: an older one on
    hold that carries the tag [sub_1], and a newer active one without tag. *)
Definition alice : customer := {| customer_ident := 7; customer_email := "a@example.com" |}.

Definition box : subscriptionItem :=
  {| item_product_id := 123; item_quantity := 2; item_name := "Box"; item_total := "40.00" |}.

Definition tagged : wooSubscription :=
  {| subscription_id := 31;
     subscription_customer := 7;
     subscription_status := "on-hold";
     date_created := 1000;
     subscription_meta_data := Some [subscriptionTag "sub_1"];
     subscription_line_items := [box] |}.

Definition untagged : wooSubscription :=
  {| subscription_id := 32;
     subscription_customer := 7;
     subscription_status := "active";
     date_created := 2000;
     subscription_meta_data := Some [];
     subscription_line_items := [] |}.

Definition details : customerDetails :=
  {| name := Some "Alice B Cooper";
     email := Some "a@example.com";
     phone := None;
     address_ := None |}.

Definition checkout : session :=
  {| session_id := "cs_1"; customer_details := Some details; subscription := Some "sub_1" |}.

Definition sub_1 : stripeSubscription :=
  {| stripe_subscription_id := "sub_1";
     stripe_subscription_customer := "cus_1";
     stripe_subscription_status := "canceled" |}.

(** A subscription of a processor customer the back office does not know. *)
Definition sub_2 : stripeSubscription :=
  {| stripe_subscription_id := "sub_2";
     stripe_subscription_customer := "cus_2";
     stripe_subscription_status := "canceled" |}.

Definition in_1 : invoice :=
  {| invoice_id := "in_1";
     invoice_subscription := "sub_1";
     invoice_customer := "cus_1";
     invoice_status := "paid" |}.

Definition start : shop :=
  {| shop_customers := [alice];
     shop_subscriptions := [untagged; tagged];
     shop_orders := [];
     next_id := 100;
     stripe_customers :=
       [ ("cus_1", {| stripe_customer_email := Some "a@example.com";
                      stripe_customer_deleted := false |});
         ("cus_2", {| stripe_customer_email := Some "nobody@example.com";
                      stripe_customer_deleted := false |}) ];
     stripe_subscriptions := [ ("sub_1", sub_1) ];
     stripe_line_items :=
       [ ("cs_1", [ {| price_id := "price_123456789"; quantity := 2 |} ]) ] |}.

(** The same shop when the customer has no subscription. *)
Definition unsubscribed : shop := with_subscriptions start [].

(** The same shop before any customer or subscription exists. *)
Definition empty : shop :=
  with_subscriptions (with_customers start [] 100) [].

Definition events : list (string * event) :=
  [ ("checkout", CheckoutSessionCompleted checkout);
    ("paid", InvoicePaid in_1);
    ("updated", CustomerSubscriptionUpdated sub_1);
    ("deleted", CustomerSubscriptionDeleted sub_1);
    ("deleted-unknown-customer", CustomerSubscriptionDeleted sub_2) ].

Definition svc : Services shop := services events.

End Demo.

(** Further cases run on the reference back office. *)

Module Cases.

(** A one-off purchase: a product that is no subscription, and no
    subscription id on the session. *)
Definition book : lineItem := {| price_id := "price_987654321"; quantity := 1 |}.

Definition plan : lineItem := {| price_id := "price_123456789"; quantity := 2 |}.

Definition unknown : lineItem := {| price_id := "price_555"; quantity := 1 |}.

Definition one_off : session :=
  {| session_id := "cs_2"; customer_details := Some Demo.details; subscription := None |}.

(** A checkout by somebody the back office does not know yet, for a price
    the mapping table does not have. *)
Definition newcomer : customerDetails :=
  {| name := Some "Bob";
     email := Some "bob@example.com";
     phone := Some "555-0100";
     address_ := None |}.

Definition unmapped_checkout : session :=
  {| session_id := "cs_3"; customer_details := Some newcomer; subscription := None |}.

(** A checkout whose contact details have no email. *)
Definition anonymous_checkout : session :=
  {| session_id := "cs_4";
     customer_details := Some {| name := Some "Eve"; email := None; phone := None;
                                 address_ := None |};
     subscription := None |}.

Definition with_line_items (w : Demo.shop) (table : list (string * list lineItem))
    : Demo.shop :=
  {| Demo.shop_customers := Demo.shop_customers w;
     Demo.shop_subscriptions := Demo.shop_subscriptions w;
     Demo.shop_orders := Demo.shop_orders w;
     Demo.next_id := Demo.next_id w;
     Demo.stripe_customers := Demo.stripe_customers w;
     Demo.stripe_subscriptions := Demo.stripe_subscriptions w;
     Demo.stripe_line_items := table |}.

Definition market : Demo.shop :=
  with_line_items Demo.start
    [ ("cs_1", [plan]); ("cs_2", [book]); ("cs_3", [plan; unknown]); ("cs_4", [book]) ].

(** An invoice of the processor customer the back office does not know. *)
Definition in_2 : invoice :=
  {| invoice_id := "in_2";
     invoice_subscription := "sub_1";
     invoice_customer := "cus_2";
     invoice_status := "paid" |}.

(** A second active subscription created at the same time as
    [Demo.untagged]. *)
Definition twin : wooSubscription :=
  {| subscription_id := 33;
     subscription_customer := 7;
     subscription_status := "active";
     date_created := 2000;
     subscription_meta_data := None;
     subscription_line_items := [] |}.

Definition twins : Demo.shop :=
  Demo.with_subscriptions Demo.start [Demo.tagged; twin; Demo.untagged].

(** A back office without customers, and a processor with a deleted
    customer and one whose email is null. *)
Definition sub_3 : stripeSubscription :=
  {| stripe_subscription_id := "sub_3";
     stripe_subscription_customer := "cus_3";
     stripe_subscription_status := "canceled" |}.

Definition sub_4 : stripeSubscription :=
  {| stripe_subscription_id := "sub_4";
     stripe_subscription_customer := "cus_4";
     stripe_subscription_status := "active" |}.

Definition ghosts : Demo.shop :=
  {| Demo.shop_customers := [];
     Demo.shop_subscriptions := [];
     Demo.shop_orders := [];
     Demo.next_id := 100;
     Demo.stripe_customers :=
       [ ("cus_3", {| stripe_customer_email := None; stripe_customer_deleted := true |});
         ("cus_4", {| stripe_customer_email := None; stripe_customer_deleted := false |}) ];
     Demo.stripe_subscriptions := [ ("sub_3", sub_3); ("sub_4", sub_4) ];
     Demo.stripe_line_items := [] |}.

(** The reference back office when it refuses every order. *)
Definition refusing : Services Demo.shop :=
  {| constructEvent := constructEvent Demo.svc;
     listLineItems := listLineItems Demo.svc;
     retrieveSubscription := retrieveSubscription Demo.svc;
     retrieveCustomer := retrieveCustomer Demo.svc;
     getCustomers := getCustomers Demo.svc;
     postCustomers := postCustomers Demo.svc;
     postOrders := fun _ w => (inl "Service Unavailable", w);
     putOrder := putOrder Demo.svc;
     getSubscriptions := getSubscriptions Demo.svc;
     putSubscription := putSubscription Demo.svc |}.

End Cases.

(** ** Vocabulary of the specification *)

(** The error classes the specification names, as the program raises them. *)
Definition ValidationError : exn := Thrown "Customer email is required".

Definition UnmappedProductError (priceId : string) : exn :=
  Thrown ("No product mapping found for Stripe price ID: " ++ priceId).

(** [printed] is how the processor customer's email reads in the message:
    the email itself, [null], or [undefined]. *)
Definition CustomerNotFoundError (printed : string) : exn :=
  Thrown ("No WooCommerce customer found for email: " ++ printed).

(** Contact details lack an email: there are no details, no email field, or
    the email is the empty string. *)
Definition lacksEmail (d : option customerDetails) : Prop :=
  match d with
  | None => True
  | Some d => email d = None \/ email d = Some ""
  end.

(** The subscription's metadata contains the tag [stripe_subscription_id]
    with the value [id]. *)
Definition Tagged (id : string) (sub : wooSubscription) : Prop :=
  exists metas m,
    subscription_meta_data sub = Some metas /\ In m metas /\
    key m = "stripe_subscription_id" /\ value m = JStr id.

Definition Active (sub : wooSubscription) : Prop := subscription_status sub = "active".

(** The price id is a key of the Product Mapping Table. *)
Definition Mapped (item : lineItem) : Prop :=
  exists m, In (price_id item, m) productMapping.

Definition SubscriptionMapped (item : lineItem) : Prop :=
  exists m, In (price_id item, m) productMapping /\ isSubscription m = true.

Definition Unmapped (item : lineItem) : Prop :=
  forall m, ~ In (price_id item, m) productMapping.

(** The line item the Order Builder sends for a mapped checkout item. *)
Definition mappedLineItem (item : lineItem) : wooLineItem :=
  {| product_id := option_map productId (own_property productMapping (price_id item));
     wooLineItem_quantity := quantity item |}.

(** The data of a list response, none when the response has no [data]. *)
Definition data_of {A : Type} (response : option (list A)) : list A :=
  match response with Some l => l | None => [] end.

(** What an awaited client call settles to. *)
Definition settled {A : Type} (r : string + A) : exn + A :=
  match r with inl m => inl (Upstream m) | inr a => inr a end.

(** The number of write calls an outcome made. *)
Definition writeCount {W A : Type} (o : outcome W A) : nat := length (writes (calls o)).

(** The outcome rejects, if it does, with an error of [P]. *)
Definition rejectsOnly {W A : Type} (P : exn -> Prop) (o : outcome W A) : Prop :=
  match result o with
  | inl e => P e
  | inr _ => True
  end.

(** The errors a handler is meant to raise: the three the program builds
    itself, and whatever a client call rejected with. *)
Definition Expected (e : exn) : Prop :=
  e = ValidationError \/
  (exists priceId, e = UnmappedProductError priceId) \/
  (exists printed, e = CustomerNotFoundError printed) \/
  (exists m, e = Upstream m).

(** The string has no space. *)
Fixpoint spaceless (s : string) : bool :=
  match s with
  | EmptyString => true
  | String c rest => negb (Ascii.eqb c " ") && spaceless rest
  end.

(** The most writes an event of each kind can cause. *)
Definition writeBudget (ev : event) : nat :=
  match ev with
  | CheckoutSessionCompleted _ => 3
  | InvoicePaid _ => 2
  | CustomerSubscriptionUpdated _ => 1
  | CustomerSubscriptionDeleted _ => 1
  | OtherEvent _ => 0
  end.

(** ** Plain objects *)

Lemma own_property_In {A : Type} (obj : list (string * A)) (k : string) (a : A) :
  own_property obj k = Some a -> In (k, a) obj.
Proof.
  induction obj as [|[k' a'] rest IH]; simpl; [discriminate|].
  destruct (String.eqb_spec k k') as [->|Hne].
  - intros [= ->]. now left.
  - intros H. right. now apply IH.
Qed.

Lemma own_property_None {A : Type} (obj : list (string * A)) (k : string) :
  (forall a, ~ In (k, a) obj) <-> own_property obj k = None.
Proof.
  split.
  - intros H. destruct (own_property obj k) as [a|] eqn:E; [|reflexivity].
    exfalso. exact (H a (own_property_In _ _ _ E)).
  - induction obj as [|[k' a'] rest IH]; simpl; intros E a; [tauto|].
    destruct (String.eqb_spec k k') as [->|Hne]; [discriminate|].
    intros [[= -> _]| Hin]; [congruence|]. exact (IH E a Hin).
Qed.

Lemma mem_In (k : string) (ks : list string) : mem k ks = true <-> In k ks.
Proof.
  unfold mem. rewrite existsb_exists. split.
  - intros [x [Hin Heq]]. apply String.eqb_eq in Heq. now subst.
  - intros Hin. exists k. split; [assumption|apply String.eqb_refl].
Qed.

Lemma mem_false (k : string) (ks : list string) : ~ In k ks -> mem k ks = false.
Proof.
  intros H. destruct (mem k ks) eqn:E; [|reflexivity].
  apply mem_In in E. contradiction.
Qed.

Lemma get_Absent {A : Type} (obj : list (string * A)) (k : string) :
  (forall a, ~ In (k, a) obj) -> ~ In k object_prototype_keys -> Js.get obj k = Absent.
Proof.
  intros Hown Hproto. unfold Js.get.
  apply own_property_None in Hown. rewrite Hown.
  now rewrite (mem_false _ _ Hproto).
Qed.

Lemma get_Own_In {A : Type} (obj : list (string * A)) (k : string) (a : A) :
  Js.get obj k = Own a -> In (k, a) obj.
Proof.
  unfold Js.get. destruct (own_property obj k) as [b|] eqn:E.
  - intros [= ->]. now apply own_property_In.
  - destruct (mem k object_prototype_keys); discriminate.
Qed.

Lemma strict_eq_JStr (v : jsval) (s : string) : strict_eq v (JStr s) = true <-> v = JStr s.
Proof.
  destruct v; simpl; split; try discriminate.
  - intros H. apply String.eqb_eq in H. now subst.
  - intros [= ->]. apply String.eqb_refl.
Qed.

Lemma truthy_or_else (a b : jsval) : truthy b = true -> truthy (or_else a b) = true.
Proof. unfold or_else. destruct (truthy a) eqn:E; auto. Qed.

(** ** The Status Translator *)

Example statusMap_entries :
  map wooStatus
      [ "active"; "past_due"; "unpaid"; "canceled"; "incomplete";
        "incomplete_expired"; "trialing"; "paused" ]
  = map JStr
      [ "active"; "on-hold"; "on-hold"; "cancelled"; "pending";
        "cancelled"; "active"; "on-hold" ].
Proof. reflexivity. Qed.

(** C1, as the claim states it, fails at the status value [constructor]: it
    is not a key of the table, yet the lookup finds the member every object
    literal inherits from [Object.prototype], which is truthy, so the
    default is not taken. *)
Lemma status_translator_inherited_key :
  (forall v, ~ In ("constructor", v) statusMap) /\
  wooStatus "constructor" = JProto "constructor" /\
  wooStatus "constructor" <> JStr "on-hold".
Proof.
  split; [|split].
  - apply own_property_None. reflexivity.
  - reflexivity.
  - discriminate.
Qed.

(** C1 (amended): for every status value the translator yields a value (it
    never fails and never yields [undefined]); for a status of the table it
    is exactly the mapped back-office status; for a status that is neither
    in the table nor the name of a member inherited from [Object.prototype]
    it is the default [on-hold]. *)
Theorem status_translator_total (stripeStatus : string) :
  truthy (wooStatus stripeStatus) = true /\
  (forall v, In (stripeStatus, v) statusMap -> wooStatus stripeStatus = JStr v) /\
  ((forall v, ~ In (stripeStatus, v) statusMap) ->
   ~ In stripeStatus object_prototype_keys ->
   wooStatus stripeStatus = JStr "on-hold").
Proof.
  split; [|split].
  - apply truthy_or_else. reflexivity.
  - intros v Hin. simpl in Hin.
    repeat (destruct Hin as [[= <- <-]|Hin]; [reflexivity|]).
    contradiction.
  - intros Hown Hproto. unfold wooStatus, statusMap_get.
    now rewrite (get_Absent _ _ Hown Hproto).
Qed.

Lemma status_translator_total_witness :
  truthy (wooStatus "refunded") = true /\
  wooStatus "past_due" = JStr "on-hold" /\
  wooStatus "refunded" = JStr "on-hold".
Proof.
  split; [|split].
  - apply (status_translator_total "refunded").
  - apply (proj1 (proj2 (status_translator_total "past_due"))).
    right. left. reflexivity.
  - apply (proj2 (proj2 (status_translator_total "refunded"))).
    + apply own_property_None. reflexivity.
    + intros H. apply mem_In in H. discriminate.
Defined.

(** ** The Subscription Locator *)

Lemma In_insert {A : Type} (cmp : A -> A -> Z) (a x : A) (l : list A) :
  In x (Js.insert cmp a l) <-> x = a \/ In x l.
Proof.
  induction l as [|y rest IH]; simpl.
  - intuition congruence.
  - destruct (cmp a y <=? 0); simpl; [intuition congruence|].
    rewrite IH. intuition congruence.
Qed.

Lemma In_sort {A : Type} (cmp : A -> A -> Z) (x : A) (l : list A) :
  In x (Js.sort cmp l) <-> In x l.
Proof.
  induction l as [|a rest IH]; simpl; [tauto|].
  rewrite In_insert, IH. intuition congruence.
Qed.

(** The head of the sorted array is a most recently created element. *)
Lemma sort_head_latest (l : list wooSubscription) :
  forall s rest,
    Js.sort byDateDescending l = s :: rest ->
    forall t, In t l -> date_created t <= date_created s.
Proof.
  induction l as [|a l IH]; intros s rest Hsort t Hin; [contradiction|].
  simpl in Hsort.
  destruct (Js.sort byDateDescending l) as [|y r] eqn:E.
  - simpl in Hsort. injection Hsort as <- _.
    destruct Hin as [<-|Hin]; [lia|].
    apply (In_sort byDateDescending) in Hin. rewrite E in Hin. contradiction.
  - specialize (IH y r eq_refl).
    simpl in Hsort. unfold byDateDescending at 1 in Hsort.
    destruct (date_created y - date_created a <=? 0) eqn:C.
    + injection Hsort as <- _. apply Z.leb_le in C.
      destruct Hin as [<-|Hin]; [lia|]. specialize (IH t Hin). lia.
    + injection Hsort as <- _. apply Z.leb_gt in C.
      destruct Hin as [<-|Hin]; [lia|]. exact (IH t Hin).
Qed.

Lemma sort_nil {A : Type} (cmp : A -> A -> Z) (l : list A) :
  Js.sort cmp l = [] -> l = [].
Proof.
  destruct l as [|a l]; [reflexivity|]. intros E.
  assert (H : In a (Js.sort cmp (a :: l))) by (apply In_sort; now left).
  rewrite E in H. contradiction.
Qed.

Lemma hasSubscriptionTag_Tagged (id : string) (sub : wooSubscription) :
  hasSubscriptionTag id sub = true <-> Tagged id sub.
Proof.
  unfold hasSubscriptionTag, Tagged.
  destruct (subscription_meta_data sub) as [metas|].
  - rewrite existsb_exists. split.
    + intros [m [Hin H]]. apply andb_true_iff in H as [Hk Hv].
      apply String.eqb_eq in Hk. apply strict_eq_JStr in Hv.
      now exists metas, m.
    + intros [metas' [m [[= <-] [Hin [Hk Hv]]]]].
      exists m. split; [assumption|].
      rewrite Hk, Hv. simpl. now rewrite String.eqb_refl.
  - split; [discriminate|]. intros [metas [m [H _]]]. discriminate.
Qed.

Lemma isActive_Active (sub : wooSubscription) : isActive sub = true <-> Active sub.
Proof. apply String.eqb_eq. Qed.

Lemma find_first {A : Type} (f : A -> bool) (before after : list A) (x : A) :
  (forall y, In y before -> f y = false) -> f x = true ->
  find f (before ++ x :: after) = Some x.
Proof.
  induction before as [|b before IH]; simpl; intros Hb Hx.
  - now rewrite Hx.
  - rewrite (Hb b (or_introl eq_refl)). apply IH; auto.
Qed.

Section Locator.
Context {W : Type} (svc : Services W).

(** What the locator does with the answer of the back office. *)
Lemma findWooSubscription_resolved (id : string) (customerId : Z) (w w' : W)
    (response : option (list wooSubscription)) :
  getSubscriptions svc customerId w = (inr response, w') ->
  findWooSubscription svc id customerId w =
    {| result :=
         inr match find (hasSubscriptionTag id) (data_of response) with
             | Some s => Some s
             | None => hd_error (Js.sort byDateDescending (filter isActive (data_of response)))
             end;
       world := w';
       calls := [GetSubscriptions customerId] |}.
Proof.
  intros H. unfold findWooSubscription, try_catch, bind, await. rewrite H.
  destruct response as [[|x l]|]; try reflexivity.
  unfold data_of.
  remember (find (hasSubscriptionTag id) (x :: l)) as tagged eqn:F.
  remember (Js.sort byDateDescending (filter isActive (x :: l))) as active eqn:S.
  cbn -[find Js.sort filter]. rewrite <- F.
  destruct tagged; [reflexivity|].
  rewrite <- S. destruct active; reflexivity.
Qed.

Lemma findWooSubscription_rejected (id : string) (customerId : Z) (w w' : W) (m : string) :
  getSubscriptions svc customerId w = (inl m, w') ->
  findWooSubscription svc id customerId w =
    {| result := inl (Upstream m); world := w'; calls := [GetSubscriptions customerId] |}.
Proof.
  intros H. unfold findWooSubscription, try_catch, bind, await. now rewrite H.
Qed.

(** The locator makes one call, a read, whatever comes back. *)
Lemma findWooSubscription_calls (id : string) (customerId : Z) (w : W) :
  calls (findWooSubscription svc id customerId w) = [GetSubscriptions customerId].
Proof.
  destruct (getSubscriptions svc customerId w) as [[m|response] w'] eqn:E.
  - now rewrite (findWooSubscription_rejected _ _ _ _ _ E).
  - now rewrite (findWooSubscription_resolved _ _ _ _ _ E).
Qed.

(** C5: when the back office answers, the locator resolves (it does not
    reject) after that one read, and what it resolves to is: a subscription
    of the list tagged with the given id, if there is one; otherwise an
    active subscription of the list than which no active one was created
    later, if there is an active one; otherwise nothing. *)
Theorem findWooSubscription_locates (id : string) (customerId : Z) (w w' : W)
    (response : option (list wooSubscription)) :
  getSubscriptions svc customerId w = (inr response, w') ->
  exists found,
    findWooSubscription svc id customerId w =
      {| result := inr found; world := w'; calls := [GetSubscriptions customerId] |} /\
    ((exists s, In s (data_of response) /\ Tagged id s) ->
     exists s, found = Some s /\ In s (data_of response) /\ Tagged id s) /\
    ((forall s, In s (data_of response) -> ~ Tagged id s) ->
     (exists s, In s (data_of response) /\ Active s) ->
     exists s, found = Some s /\ In s (data_of response) /\ Active s /\
               forall t, In t (data_of response) -> Active t ->
                         date_created t <= date_created s) /\
    ((forall s, In s (data_of response) -> ~ Tagged id s) ->
     (forall s, In s (data_of response) -> ~ Active s) ->
     found = None).
Proof.
  intros H. eexists. split; [exact (findWooSubscription_resolved id _ _ _ _ H)|].
  set (data := data_of response).
  split; [|split].
  - intros [s [Hin Ht]].
    destruct (find (hasSubscriptionTag id) data) as [s'|] eqn:F.
    + apply find_some in F as [Hin' Ht']. exists s'.
      repeat split; [assumption|]. now apply hasSubscriptionTag_Tagged.
    + apply hasSubscriptionTag_Tagged in Ht.
      rewrite (find_none _ _ F s Hin) in Ht. discriminate.
  - intros Hno [s [Hin Ha]].
    destruct (find (hasSubscriptionTag id) data) as [s'|] eqn:F.
    + apply find_some in F as [Hin' Ht'].
      apply hasSubscriptionTag_Tagged in Ht'. now destruct (Hno s' Hin').
    + destruct (Js.sort byDateDescending (filter isActive data)) as [|first rest] eqn:S.
      * apply sort_nil in S.
        assert (Hs : In s (filter isActive data))
          by (apply filter_In; split; [assumption|now apply isActive_Active]).
        rewrite S in Hs. contradiction.
      * assert (Hf : In first (filter isActive data))
          by (apply (In_sort byDateDescending); rewrite S; now left).
        apply filter_In in Hf as [Hf Hfa].
        exists first. simpl. repeat split; [assumption|now apply isActive_Active|].
        intros t Ht Hta. apply (sort_head_latest _ _ _ S).
        apply filter_In. split; [assumption|now apply isActive_Active].
  - intros Hno Hna.
    destruct (find (hasSubscriptionTag id) data) as [s'|] eqn:F.
    + apply find_some in F as [Hin' Ht'].
      apply hasSubscriptionTag_Tagged in Ht'. now destruct (Hno s' Hin').
    + destruct (Js.sort byDateDescending (filter isActive data)) as [|first rest] eqn:S;
        [reflexivity|].
      assert (Hf : In first (filter isActive data))
        by (apply (In_sort byDateDescending); rewrite S; now left).
      apply filter_In in Hf as [Hf Hfa]. apply isActive_Active in Hfa.
      now destruct (Hna first Hf).
Qed.

(** C9: a subscription tagged with the given id, with no tagged one before
    it in the order of the response, is what the locator resolves to,
    whatever its status and whatever the other subscriptions are. *)
Theorem findWooSubscription_tag_first (id : string) (customerId : Z) (w w' : W)
    (before after : list wooSubscription) (s : wooSubscription) :
  getSubscriptions svc customerId w = (inr (Some (before ++ s :: after)%list), w') ->
  Tagged id s ->
  (forall t, In t before -> ~ Tagged id t) ->
  result (findWooSubscription svc id customerId w) = inr (Some s).
Proof.
  intros H Hs Hbefore.
  rewrite (findWooSubscription_resolved id _ _ _ _ H). simpl.
  rewrite find_first; [reflexivity| |now apply hasSubscriptionTag_Tagged].
  intros y Hy. destruct (hasSubscriptionTag id y) eqn:E; [|reflexivity].
  apply hasSubscriptionTag_Tagged in E. now destruct (Hbefore y Hy).
Qed.

End Locator.

Lemma findWooSubscription_locates_witness :
  exists found,
    findWooSubscription Demo.svc "sub_1" 7 Demo.start =
      {| result := inr found; world := Demo.start; calls := [GetSubscriptions 7] |} /\
    ((exists s, In s [Demo.untagged; Demo.tagged] /\ Tagged "sub_1" s) ->
     exists s, found = Some s /\ In s [Demo.untagged; Demo.tagged] /\ Tagged "sub_1" s) /\
    ((forall s, In s [Demo.untagged; Demo.tagged] -> ~ Tagged "sub_1" s) ->
     (exists s, In s [Demo.untagged; Demo.tagged] /\ Active s) ->
     exists s, found = Some s /\ In s [Demo.untagged; Demo.tagged] /\ Active s /\
               forall t, In t [Demo.untagged; Demo.tagged] -> Active t ->
                         date_created t <= date_created s) /\
    ((forall s, In s [Demo.untagged; Demo.tagged] -> ~ Tagged "sub_1" s) ->
     (forall s, In s [Demo.untagged; Demo.tagged] -> ~ Active s) ->
     found = None).
Proof.
  apply (findWooSubscription_locates Demo.svc "sub_1" 7 Demo.start Demo.start
           (Some [Demo.untagged; Demo.tagged])).
  reflexivity.
Defined.

(** Without a tag the newer active subscription is found; without an active
    one, nothing. *)
Example findWooSubscription_fallback :
  result (findWooSubscription Demo.svc "sub_9" 7 Demo.start) = inr (Some Demo.untagged) /\
  result (findWooSubscription Demo.svc "sub_9" 8 Demo.start) = inr None.
Proof. split; reflexivity. Qed.

Lemma findWooSubscription_tag_first_witness :
  subscription_status Demo.tagged = "on-hold" /\
  Active Demo.untagged /\
  result (findWooSubscription Demo.svc "sub_1" 7 Demo.start) = inr (Some Demo.tagged).
Proof.
  split; [reflexivity|split; [reflexivity|]].
  apply (findWooSubscription_tag_first Demo.svc "sub_1" 7 Demo.start Demo.start
           [Demo.untagged] [] Demo.tagged).
  - reflexivity.
  - apply hasSubscriptionTag_Tagged. reflexivity.
  - intros t [<-|[]] H. apply hasSubscriptionTag_Tagged in H. discriminate.
Defined.

(** ** The status write and the Renewal Processor *)

Section Renewal.
Context {W : Type} (svc : Services W).

Lemma updateWooSubscriptionStatus_run (subscriptionId : Z) (stripeStatus : string) (w : W) :
  updateWooSubscriptionStatus svc subscriptionId stripeStatus w =
    {| result := settled (fst (putSubscription svc subscriptionId (wooStatus stripeStatus) w));
       world := snd (putSubscription svc subscriptionId (wooStatus stripeStatus) w);
       calls := [PutSubscription subscriptionId (wooStatus stripeStatus)] |}.
Proof.
  unfold updateWooSubscriptionStatus, try_catch, bind, await.
  destruct (putSubscription svc subscriptionId (wooStatus stripeStatus) w) as [[m|r] w'];
    reflexivity.
Qed.

Lemma processSubscriptionRenewal_no_match (inv : invoice) (sub : stripeSubscription)
    (customerId : Z) (w : W) :
  result (findWooSubscription svc (stripe_subscription_id sub) customerId w) = inr None ->
  processSubscriptionRenewal svc inv sub customerId w =
    {| result := inr None;
       world := world (findWooSubscription svc (stripe_subscription_id sub) customerId w);
       calls := [GetSubscriptions customerId] |}.
Proof.
  intros H.
  assert (C := findWooSubscription_calls svc (stripe_subscription_id sub) customerId w).
  unfold processSubscriptionRenewal, try_catch, bind. cbv zeta.
  rewrite H. cbn. rewrite C. reflexivity.
Qed.

(** C6: when the locator finds no subscription for the invoice's
    subscription, the Renewal Processor resolves (to [undefined]) and has
    made no write call: its only call is the locator's read. *)
Theorem processSubscriptionRenewal_skips (inv : invoice) (sub : stripeSubscription)
    (customerId : Z) (w : W) :
  result (findWooSubscription svc (stripe_subscription_id sub) customerId w) = inr None ->
  result (processSubscriptionRenewal svc inv sub customerId w) = inr None /\
  writes (calls (processSubscriptionRenewal svc inv sub customerId w)) = [] /\
  calls (processSubscriptionRenewal svc inv sub customerId w) = [GetSubscriptions customerId].
Proof.
  intros H. rewrite (processSubscriptionRenewal_no_match inv sub customerId w H).
  repeat split.
Qed.

(** C7: when the locator finds a subscription, the Renewal Processor posts
    a renewal order whose line items are the subscription's line items cut
    down to product id and quantity; if that order is created, its next and
    last call writes the status [active] to the matched subscription, and
    it resolves to the created order when that write succeeds.  The
    invoice's own status plays no part. *)
Theorem processSubscriptionRenewal_reactivates (inv : invoice) (sub : stripeSubscription)
    (customerId : Z) (w : W) (woo : wooSubscription) (created : order) (w2 : W) :
  result (findWooSubscription svc (stripe_subscription_id sub) customerId w) = inr (Some woo) ->
  postOrders svc (renewalOrderData inv sub customerId woo)
             (world (findWooSubscription svc (stripe_subscription_id sub) customerId w))
    = (inr created, w2) ->
  line_items (renewalOrderData inv sub customerId woo) =
    map (fun item => {| product_id := Some (item_product_id item);
                        wooLineItem_quantity := item_quantity item |})
        (subscription_line_items woo) /\
  calls (processSubscriptionRenewal svc inv sub customerId w) =
    [ GetSubscriptions customerId;
      PostOrders (renewalOrderData inv sub customerId woo);
      PutSubscription (subscription_id woo) (JStr "active") ] /\
  result (processSubscriptionRenewal svc inv sub customerId w) =
    match fst (putSubscription svc (subscription_id woo) (JStr "active") w2) with
    | inl m => inl (Upstream m)
    | inr _ => inr (Some created)
    end.
Proof.
  intros H P.
  assert (C := findWooSubscription_calls svc (stripe_subscription_id sub) customerId w).
  split; [reflexivity|].
  unfold processSubscriptionRenewal, try_catch, bind, await. cbv zeta.
  rewrite H. cbv beta iota. rewrite P. cbv beta iota.
  rewrite updateWooSubscriptionStatus_run. cbn [result world calls].
  change (wooStatus "active") with (JStr "active").
  rewrite C.
  destruct (putSubscription svc (subscription_id woo) (JStr "active") w2) as [[m|r] w3];
    split; reflexivity.
Qed.

(** If the renewal order is refused, no status is written. *)
Lemma processSubscriptionRenewal_order_refused (inv : invoice) (sub : stripeSubscription)
    (customerId : Z) (w : W) (woo : wooSubscription) (m : string) (w2 : W) :
  result (findWooSubscription svc (stripe_subscription_id sub) customerId w) = inr (Some woo) ->
  postOrders svc (renewalOrderData inv sub customerId woo)
             (world (findWooSubscription svc (stripe_subscription_id sub) customerId w))
    = (inl m, w2) ->
  processSubscriptionRenewal svc inv sub customerId w =
    {| result := inl (Upstream m);
       world := w2;
       calls := [ GetSubscriptions customerId;
                  PostOrders (renewalOrderData inv sub customerId woo) ] |}.
Proof.
  intros H P.
  assert (C := findWooSubscription_calls svc (stripe_subscription_id sub) customerId w).
  unfold processSubscriptionRenewal, try_catch, bind, await. cbv zeta.
  rewrite H. cbv beta iota. rewrite P. cbn. rewrite C. reflexivity.
Qed.

End Renewal.

Lemma processSubscriptionRenewal_skips_witness :
  result (processSubscriptionRenewal Demo.svc Demo.in_1 Demo.sub_1 7 Demo.empty) = inr None /\
  writes (calls (processSubscriptionRenewal Demo.svc Demo.in_1 Demo.sub_1 7 Demo.empty)) = [] /\
  calls (processSubscriptionRenewal Demo.svc Demo.in_1 Demo.sub_1 7 Demo.empty)
    = [GetSubscriptions 7].
Proof.
  apply (processSubscriptionRenewal_skips Demo.svc Demo.in_1 Demo.sub_1 7 Demo.empty).
  reflexivity.
Defined.

Lemma processSubscriptionRenewal_reactivates_witness :
  calls (processSubscriptionRenewal Demo.svc Demo.in_1 Demo.sub_1 7 Demo.start) =
    [ GetSubscriptions 7;
      PostOrders (renewalOrderData Demo.in_1 Demo.sub_1 7 Demo.tagged);
      PutSubscription 31 (JStr "active") ] /\
  line_items (renewalOrderData Demo.in_1 Demo.sub_1 7 Demo.tagged) =
    [ {| product_id := Some 123; wooLineItem_quantity := 2 |} ].
Proof.
  split; [|reflexivity].
  apply (processSubscriptionRenewal_reactivates Demo.svc Demo.in_1 Demo.sub_1 7 Demo.start
           Demo.tagged
           {| order_id := 100;
              order_status := "processing";
              order_line_items := [ {| product_id := Some 123; wooLineItem_quantity := 2 |} ];
              order_meta_data := meta_data (renewalOrderData Demo.in_1 Demo.sub_1 7 Demo.tagged) |}
           (snd (Demo.demo_postOrders (renewalOrderData Demo.in_1 Demo.sub_1 7 Demo.tagged)
                                      Demo.start)));
    reflexivity.
Defined.

(** ** The Customer Reconciler *)

Lemma present_false (s : option string) : present s = false <-> s = None \/ s = Some "".
Proof.
  destruct s as [x|]; simpl.
  - destruct (String.eqb_spec x "") as [->|Hne]; simpl.
    + intuition.
    + split; [discriminate|]. intros [H|[= H]]; [discriminate|contradiction].
  - intuition.
Qed.

Section Reconciler.
Context {W : Type} (svc : Services W).

Lemma getOrCreateWooCustomer_invalid (d : option customerDetails) (w : W) :
  lacksEmail d ->
  getOrCreateWooCustomer svc d w = {| result := inl ValidationError; world := w; calls := [] |}.
Proof.
  destruct d as [d|]; simpl; [|reflexivity].
  intros H. apply present_false in H. now rewrite H.
Qed.

Lemma getOrCreateWooCustomer_valid (d : customerDetails) (w : W) :
  ~ lacksEmail (Some d) ->
  getOrCreateWooCustomer svc (Some d) w =
    match getCustomers svc (email d) w with
    | (inl m, w1) =>
        {| result := inl (Upstream m); world := w1; calls := [GetCustomers (email d)] |}
    | (inr (Some (first :: _)), w1) =>
        {| result := inr first; world := w1; calls := [GetCustomers (email d)] |}
    | (inr _, w1) =>
        {| result := settled (fst (postCustomers svc (customerData_of d) w1));
           world := snd (postCustomers svc (customerData_of d) w1);
           calls := [GetCustomers (email d); PostCustomers (customerData_of d)] |}
    end.
Proof.
  intros H. simpl in H.
  assert (P : present (email d) = true).
  { destruct (present (email d)) eqn:E; [reflexivity|].
    apply present_false in E. contradiction. }
  unfold getOrCreateWooCustomer. rewrite P. cbn [negb].
  unfold try_catch, bind, await.
  destruct (getCustomers svc (email d) w) as [[m|[[|first rest]|]] w1]; cbn;
    try reflexivity;
    destruct (postCustomers svc (customerData_of d) w1) as [[m'|c] w2]; reflexivity.
Qed.

(** C8: the reconciler fails with the validation error exactly when the
    contact details lack an email, and then calls nothing.  Otherwise it
    reads the customers with that email once and then: returns the first
    customer of the answer, without any write, if there is one; makes
    exactly one write, the creation of the customer, if the answer is
    empty; writes nothing if the read is rejected. *)
Theorem getOrCreateWooCustomer_contract (d : option customerDetails) (w : W) :
  (result (getOrCreateWooCustomer svc d w) = inl ValidationError <-> lacksEmail d) /\
  (lacksEmail d -> calls (getOrCreateWooCustomer svc d w) = []) /\
  (forall d', d = Some d' -> ~ lacksEmail d ->
     calls (getOrCreateWooCustomer svc d w)
       = GetCustomers (email d') :: writes (calls (getOrCreateWooCustomer svc d w)) /\
     match fst (getCustomers svc (email d') w) with
     | inr (Some (first :: _)) =>
         result (getOrCreateWooCustomer svc d w) = inr first /\
         writes (calls (getOrCreateWooCustomer svc d w)) = []
     | inr _ =>
         writes (calls (getOrCreateWooCustomer svc d w)) = [PostCustomers (customerData_of d')]
     | inl m =>
         result (getOrCreateWooCustomer svc d w) = inl (Upstream m) /\
         writes (calls (getOrCreateWooCustomer svc d w)) = []
     end).
Proof.
  split; [split|split].
  - intros H. destruct d as [d|]; [|exact I].
    destruct (present (email d)) eqn:P; [|now apply present_false].
    exfalso. revert H.
    rewrite getOrCreateWooCustomer_valid
      by (intros L; apply present_false in L; congruence).
    destruct (getCustomers svc (email d) w) as [[m|[[|first rest]|]] w1]; simpl;
      try discriminate;
      destruct (fst (postCustomers svc (customerData_of d) w1)); discriminate.
  - intros H. now rewrite getOrCreateWooCustomer_invalid.
  - intros H. now rewrite getOrCreateWooCustomer_invalid.
  - intros d' -> H. rewrite getOrCreateWooCustomer_valid by assumption.
    destruct (getCustomers svc (email d') w) as [[m|[[|first rest]|]] w1]; simpl;
      repeat split.
Qed.

End Reconciler.

Example getOrCreateWooCustomer_examples :
  result (getOrCreateWooCustomer Demo.svc None Demo.start) = inl ValidationError /\
  getOrCreateWooCustomer Demo.svc (Some Demo.details) Demo.start =
    {| result := inr Demo.alice;
       world := Demo.start;
       calls := [GetCustomers (Some "a@example.com")] |} /\
  calls (getOrCreateWooCustomer Demo.svc (Some Demo.details) Demo.empty) =
    [ GetCustomers (Some "a@example.com"); PostCustomers (customerData_of Demo.details) ] /\
  customerData_first_name (customerData_of Demo.details) = "Alice" /\
  customerData_last_name (customerData_of Demo.details) = "B Cooper".
Proof. repeat split. Qed.

Lemma getOrCreateWooCustomer_contract_witness :
  (result (getOrCreateWooCustomer Demo.svc (Some Demo.details) Demo.start) = inr Demo.alice /\
   writes (calls (getOrCreateWooCustomer Demo.svc (Some Demo.details) Demo.start)) = []) /\
  writes (calls (getOrCreateWooCustomer Demo.svc (Some Demo.details) Demo.empty))
    = [PostCustomers (customerData_of Demo.details)] /\
  calls (getOrCreateWooCustomer Demo.svc None Demo.start) = [].
Proof.
  assert (E : ~ lacksEmail (Some Demo.details))
    by (intros [H|H]; discriminate).
  split; [|split].
  - exact (proj2 (proj2 (proj2 (getOrCreateWooCustomer_contract
                                  Demo.svc (Some Demo.details) Demo.start))
                    Demo.details eq_refl E)).
  - exact (proj2 (proj2 (proj2 (getOrCreateWooCustomer_contract
                                  Demo.svc (Some Demo.details) Demo.empty))
                    Demo.details eq_refl E)).
  - exact (proj1 (proj2 (getOrCreateWooCustomer_contract Demo.svc None Demo.start)) I).
Defined.

(** ** The Order Builder *)

Lemma In_own_property {A : Type} (obj : list (string * A)) (k : string) (a : A) :
  In (k, a) obj -> exists a', own_property obj k = Some a'.
Proof.
  intros H. destruct (own_property obj k) as [a'|] eqn:E; [now exists a'|].
  exfalso. exact (proj2 (own_property_None obj k) E a H).
Qed.

Lemma toWooLineItem_mapped (item : lineItem) :
  Mapped item -> toWooLineItem item = inr (mappedLineItem item).
Proof.
  intros [m H]. apply In_own_property in H as [m' H].
  unfold toWooLineItem, mappedLineItem, Js.get. now rewrite H.
Qed.

Lemma toWooLineItem_unmapped (item : lineItem) :
  Unmapped item -> ~ In (price_id item) object_prototype_keys ->
  toWooLineItem item = inl (UnmappedProductError (price_id item)).
Proof.
  intros Hown Hproto. unfold toWooLineItem. now rewrite (get_Absent _ _ Hown Hproto).
Qed.

(** A rejected callback is one whose price id is in neither place. *)
Lemma toWooLineItem_rejected (item : lineItem) (e : exn) :
  toWooLineItem item = inl e ->
  Unmapped item /\ e = UnmappedProductError (price_id item).
Proof.
  unfold toWooLineItem, Js.get, Unmapped.
  destruct (own_property productMapping (price_id item)) as [m|] eqn:E; [discriminate|].
  destruct (mem (price_id item) object_prototype_keys); [discriminate|].
  intros [= <-]. split; [now apply own_property_None|reflexivity].
Qed.

Lemma promise_all_mapped (items : list lineItem) :
  (forall i, In i items -> Mapped i) ->
  promise_all (map toWooLineItem items) = inr (map mappedLineItem items).
Proof.
  induction items as [|i items IH]; intros H; [reflexivity|].
  simpl. rewrite (toWooLineItem_mapped i) by (apply H; now left).
  rewrite IH by (intros j Hj; apply H; now right). reflexivity.
Qed.

Lemma promise_all_unmapped (items : list lineItem) :
  (exists i, In i items /\ Unmapped i /\ ~ In (price_id i) object_prototype_keys) ->
  exists i, In i items /\ Unmapped i /\
            promise_all (map toWooLineItem items) = inl (UnmappedProductError (price_id i)).
Proof.
  induction items as [|j items IH]; intros [i [Hin [Hu Hp]]]; [contradiction|].
  simpl. destruct (toWooLineItem j) as [e|li] eqn:E.
  - apply toWooLineItem_rejected in E as [Hj ->]. exists j. auto.
  - destruct Hin as [->|Hin].
    + rewrite (toWooLineItem_unmapped i Hu Hp) in E. discriminate.
    + destruct IH as [k [Hk [Hku Hkp]]]; [now exists i|].
      exists k. rewrite Hkp. auto.
Qed.

Lemma toWooLineItem_rejected_key (item : lineItem) (e : exn) :
  toWooLineItem item = inl e -> ~ In (price_id item) object_prototype_keys.
Proof.
  unfold toWooLineItem, Js.get.
  destruct (own_property productMapping (price_id item)) as [m|]; [discriminate|].
  destruct (mem (price_id item) object_prototype_keys) eqn:E; [discriminate|].
  intros _ H. apply mem_In in H. congruence.
Qed.

(** [Promise.all] rejects with the error of the first item whose price id
    is found in neither place. *)
Lemma promise_all_first_unmapped (items : list lineItem) :
  (exists i, In i items /\ Unmapped i /\ ~ In (price_id i) object_prototype_keys) ->
  exists before i after,
    items = (before ++ i :: after)%list /\
    Unmapped i /\ ~ In (price_id i) object_prototype_keys /\
    (forall j, In j before ->
               ~ (Unmapped j /\ ~ In (price_id j) object_prototype_keys)) /\
    promise_all (map toWooLineItem items) = inl (UnmappedProductError (price_id i)).
Proof.
  induction items as [|j items IH]; intros [i [Hin [Hu Hp]]]; [contradiction|].
  simpl. destruct (toWooLineItem j) as [e|li] eqn:E.
  - assert (Hk := toWooLineItem_rejected_key j e E).
    apply toWooLineItem_rejected in E as [Hj ->].
    exists [], j, items. repeat split; try assumption. intros k [].
  - assert (Hj : ~ (Unmapped j /\ ~ In (price_id j) object_prototype_keys)).
    { intros [Hju Hjp]. rewrite (toWooLineItem_unmapped j Hju Hjp) in E. discriminate. }
    destruct Hin as [->|Hin]; [now destruct Hj|].
    destruct IH as [before [k [after [-> [Hku [Hkp [Hb Hr]]]]]]]; [now exists i|].
    exists (j :: before), k, after. rewrite Hr.
    repeat split; try assumption.
    intros x [<-|Hx]; [assumption|now apply Hb].
Qed.

Lemma isSubscriptionItem_mapped (item : lineItem) :
  SubscriptionMapped item -> isSubscriptionItem item = true.
Proof.
  intros [m [Hin Hsub]]. unfold isSubscriptionItem.
  simpl in Hin. destruct Hin as [[= Hk <-]|[[= Hk <-]|[]]].
  - now rewrite <- Hk.
  - discriminate.
Qed.

Section Builder.
Context {W : Type} (svc : Services W).

(** C4 (amended): when some line item has a price id that is neither a key
    of the Product Mapping Table nor the name of a member inherited from
    [Object.prototype], the Order Builder rejects with the unmapped-product
    error of the first such item, and it has called nothing: no write
    reaches the back office and the world is as it was. *)
Theorem createWooOrder_unmapped (s : session) (items : list lineItem) (customerId : Z) (w : W) :
  (exists i, In i items /\ Unmapped i /\ ~ In (price_id i) object_prototype_keys) ->
  exists before i after,
    items = (before ++ i :: after)%list /\
    Unmapped i /\ ~ In (price_id i) object_prototype_keys /\
    (forall j, In j before ->
               ~ (Unmapped j /\ ~ In (price_id j) object_prototype_keys)) /\
    createWooOrder svc s items customerId w =
      {| result := inl (Thrown ("No product mapping found for Stripe price ID: "
                                ++ price_id i));
         world := w;
         calls := [] |}.
Proof.
  intros H.
  destruct (promise_all_first_unmapped items H) as [before [i [after [E [Hu [Hp [Hb R]]]]]]].
  exists before, i, after. repeat split; try assumption.
  unfold createWooOrder, try_catch, bind. rewrite R. reflexivity.
Qed.

(** C3 (amended): for a session with customer details and a subscription
    id, whose line items are all mapped and one of them to a subscription
    product, if the back office creates the order then the Order Builder
    makes exactly two calls, both writes: the creation, whose metadata is
    the checkout-id tag, and the amend of the created order with the
    metadata of the created record followed by the subscription-id tag.
    When the amend succeeds it resolves to the record the creation
    answered, unchanged. *)
Theorem createWooOrder_two_phase (s : session) (d : customerDetails) (sid : string)
    (items : list lineItem) (customerId : Z) (w w1 : W) (created : order) :
  customer_details s = Some d ->
  subscription s = Some sid -> sid <> "" ->
  (forall i, In i items -> Mapped i) ->
  (exists i, In i items /\ SubscriptionMapped i) ->
  postOrders svc (checkoutOrderData s d (map mappedLineItem items) customerId) w
    = (inr created, w1) ->
  calls (createWooOrder svc s items customerId w) =
    [ PostOrders (checkoutOrderData s d (map mappedLineItem items) customerId);
      PutOrder (order_id created) (order_meta_data created ++ [subscriptionTag sid])%list ] /\
  writes (calls (createWooOrder svc s items customerId w))
    = calls (createWooOrder svc s items customerId w) /\
  meta_data (checkoutOrderData s d (map mappedLineItem items) customerId) =
    [ {| key := "stripe_checkout_id"; value := JStr (session_id s) |} ] /\
  result (createWooOrder svc s items customerId w) =
    match fst (putOrder svc (order_id created)
                        (order_meta_data created ++ [subscriptionTag sid])%list w1) with
    | inl m => inl (Upstream m)
    | inr _ => inr created
    end.
Proof.
  intros Hd Hs Hne Hmapped [i [Hin Hsub]] Hpost.
  assert (Hhas : existsb isSubscriptionItem items = true).
  { apply existsb_exists. exists i. split; [assumption|now apply isSubscriptionItem_mapped]. }
  assert (Hpresent : present (subscription s) = true).
  { rewrite Hs. simpl. destruct (String.eqb_spec sid ""); [contradiction|reflexivity]. }
  assert (R : createWooOrder svc s items customerId w =
    {| result := match fst (putOrder svc (order_id created)
                          (order_meta_data created ++ [subscriptionTag sid])%list w1) with
                 | inl m => inl (Upstream m)
                 | inr _ => inr created
                 end;
       world := snd (putOrder svc (order_id created)
                       (order_meta_data created ++ [subscriptionTag sid])%list w1);
       calls := [ PostOrders (checkoutOrderData s d (map mappedLineItem items) customerId);
                  PutOrder (order_id created)
                           (order_meta_data created ++ [subscriptionTag sid])%list ] |}).
  { unfold createWooOrder, try_catch, bind, await. cbv zeta.
    rewrite (promise_all_mapped items Hmapped). cbn [settle ret result world calls app].
    rewrite Hd. cbv beta iota. rewrite Hpost. cbv beta iota. cbn [result world calls].
    rewrite Hhas, Hpresent. cbn [andb]. rewrite Hs. cbn [or_empty].
    destruct (putOrder svc (order_id created)
                (order_meta_data created ++ [subscriptionTag sid])%list w1) as [[m|r] w2];
      reflexivity. }
  rewrite R. repeat split.
Qed.

End Builder.

(** C3, as the claim states it, fails on the reference back office: both
    writes are made and succeed, the amended order in the shop carries both
    tags, but the record the Order Builder resolves to is the one the
    creation answered, which carries the checkout-id tag only. *)
Lemma createWooOrder_returns_created_record :
  SubscriptionMapped {| price_id := "price_123456789"; quantity := 2 |} /\
  subscription Demo.checkout = Some "sub_1" /\
  exists returned stored,
    result (createWooOrder Demo.svc Demo.checkout
              [ {| price_id := "price_123456789"; quantity := 2 |} ] 7 Demo.start)
      = inr returned /\
    order_meta_data returned = [ {| key := "stripe_checkout_id"; value := JStr "cs_1" |} ] /\
    existsb (fun m => (key m =? "stripe_subscription_id")%string)
            (order_meta_data returned) = false /\
    Demo.shop_orders
      (world (createWooOrder Demo.svc Demo.checkout
                [ {| price_id := "price_123456789"; quantity := 2 |} ] 7 Demo.start))
      = [stored] /\
    order_meta_data stored =
      [ {| key := "stripe_checkout_id"; value := JStr "cs_1" |}; subscriptionTag "sub_1" ].
Proof.
  split; [|split; [reflexivity|]].
  - eexists. split; [left; reflexivity|reflexivity].
  - eexists. eexists. repeat split.
Qed.

Lemma createWooOrder_two_phase_witness :
  calls (createWooOrder Demo.svc Demo.checkout
           [ {| price_id := "price_123456789"; quantity := 2 |} ] 7 Demo.start) =
    [ PostOrders (checkoutOrderData Demo.checkout Demo.details
                    [ {| product_id := Some 123; wooLineItem_quantity := 2 |} ] 7);
      PutOrder 100 [ {| key := "stripe_checkout_id"; value := JStr "cs_1" |};
                     subscriptionTag "sub_1" ] ].
Proof.
  apply (createWooOrder_two_phase Demo.svc Demo.checkout Demo.details "sub_1"
           [ {| price_id := "price_123456789"; quantity := 2 |} ] 7 Demo.start
           (snd (Demo.demo_postOrders
                   (checkoutOrderData Demo.checkout Demo.details
                      [ {| product_id := Some 123; wooLineItem_quantity := 2 |} ] 7)
                   Demo.start))
           {| order_id := 100;
              order_status := "processing";
              order_line_items := [ {| product_id := Some 123; wooLineItem_quantity := 2 |} ];
              order_meta_data := [ {| key := "stripe_checkout_id"; value := JStr "cs_1" |} ] |}).
  - reflexivity.
  - reflexivity.
  - discriminate.
  - intros i [<-|[]]. eexists. left. reflexivity.
  - eexists. split; [now left|]. eexists. split; [left; reflexivity|reflexivity].
  - reflexivity.
Defined.

(** C4, as the claim states it, fails at the price id [toString]: it is not
    a key of the table, but the lookup finds the inherited member, so
    nothing is thrown and an order with an undefined product id is
    posted. *)
Lemma createWooOrder_inherited_price_id :
  Unmapped {| price_id := "toString"; quantity := 1 |} /\
  exists created,
    result (createWooOrder Demo.svc Demo.checkout
              [ {| price_id := "toString"; quantity := 1 |} ] 7 Demo.start) = inr created /\
    order_line_items created = [ {| product_id := None; wooLineItem_quantity := 1 |} ] /\
    writes (calls (createWooOrder Demo.svc Demo.checkout
                     [ {| price_id := "toString"; quantity := 1 |} ] 7 Demo.start))
      = [ PostOrders (checkoutOrderData Demo.checkout Demo.details
                        [ {| product_id := None; wooLineItem_quantity := 1 |} ] 7) ].
Proof.
  split.
  - unfold Unmapped. apply own_property_None. reflexivity.
  - eexists. repeat split.
Qed.

Lemma createWooOrder_unmapped_witness :
  exists before i after,
    [ {| price_id := "price_123456789"; quantity := 2 |};
      {| price_id := "price_555"; quantity := 1 |};
      {| price_id := "price_777"; quantity := 3 |} ] = (before ++ i :: after)%list /\
    Unmapped i /\ ~ In (price_id i) object_prototype_keys /\
    (forall j, In j before ->
               ~ (Unmapped j /\ ~ In (price_id j) object_prototype_keys)) /\
    createWooOrder Demo.svc Demo.checkout
      [ {| price_id := "price_123456789"; quantity := 2 |};
        {| price_id := "price_555"; quantity := 1 |};
        {| price_id := "price_777"; quantity := 3 |} ] 7 Demo.start =
      {| result := inl (Thrown ("No product mapping found for Stripe price ID: "
                                ++ price_id i));
         world := Demo.start;
         calls := [] |}.
Proof.
  apply (createWooOrder_unmapped Demo.svc Demo.checkout
           [ {| price_id := "price_123456789"; quantity := 2 |};
             {| price_id := "price_555"; quantity := 1 |};
             {| price_id := "price_777"; quantity := 3 |} ] 7 Demo.start).
  exists {| price_id := "price_777"; quantity := 3 |}.
  split; [right; right; now left|split].
  - unfold Unmapped. apply own_property_None. reflexivity.
  - intros H. apply mem_In in H. discriminate.
Defined.

(** Of two unmapped items the error names the first. *)
Example createWooOrder_unmapped_names_first :
  result (createWooOrder Demo.svc Demo.checkout
            [ {| price_id := "price_123456789"; quantity := 2 |};
              {| price_id := "price_555"; quantity := 1 |};
              {| price_id := "price_777"; quantity := 3 |} ] 7 Demo.start)
  = inl (Thrown "No product mapping found for Stripe price ID: price_555").
Proof. reflexivity. Qed.

(** ** The subscription handlers and the dispatcher *)

Section Handlers.
Context {W : Type} (svc : Services W).

Lemma findWooCustomerByEmail_run (email : option string) (w : W) :
  findWooCustomerByEmail svc email w =
    {| result := match fst (getCustomers svc email w) with
                 | inl m => inl (Upstream m)
                 | inr response => inr (hd_error (data_of response))
                 end;
       world := snd (getCustomers svc email w);
       calls := [GetCustomers email] |}.
Proof.
  unfold findWooCustomerByEmail, try_catch, bind, await.
  destruct (getCustomers svc email w) as [[m|[[|first rest]|]] w']; reflexivity.
Qed.

(** The steps the two subscription handlers share: the processor's
    customer is retrieved ([Hr]) and the back-office customer looked up
    ([Hc]). *)
Ltac enter_handler Hr Hc :=
  unfold handleSubscriptionUpdated, handleSubscriptionCancelled, try_catch, bind, await;
  cbv zeta; rewrite Hr; cbv beta iota; cbn [result world calls];
  rewrite Hc; cbv beta iota.

Lemma handlers_no_customer (sub : stripeSubscription) (w w1 : W) (sc : stripeCustomer)
    (handler : stripeSubscription -> M W unit) :
  handler = handleSubscriptionUpdated svc \/ handler = handleSubscriptionCancelled svc ->
  retrieveCustomer svc (stripe_subscription_customer sub) w = (inr sc, w1) ->
  result (findWooCustomerByEmail svc (stripe_customer_email sc) w1) = inr None ->
  handler sub w =
    {| result := inl (noCustomer sc);
       world := world (findWooCustomerByEmail svc (stripe_customer_email sc) w1);
       calls := [ StripeRetrieveCustomer (stripe_subscription_customer sub);
                  GetCustomers (stripe_customer_email sc) ] |}.
Proof.
  intros Hh Hr Hc.
  assert (C : calls (findWooCustomerByEmail svc (stripe_customer_email sc) w1)
              = [GetCustomers (stripe_customer_email sc)])
    by now rewrite findWooCustomerByEmail_run.
  destruct Hh as [->| ->]; enter_handler Hr Hc; cbn; rewrite C; reflexivity.
Qed.

Lemma handlers_no_subscription (sub : stripeSubscription) (w w1 : W) (sc : stripeCustomer)
    (c : customer) (handler : stripeSubscription -> M W unit) :
  handler = handleSubscriptionUpdated svc \/ handler = handleSubscriptionCancelled svc ->
  retrieveCustomer svc (stripe_subscription_customer sub) w = (inr sc, w1) ->
  result (findWooCustomerByEmail svc (stripe_customer_email sc) w1) = inr (Some c) ->
  result (findWooSubscription svc (stripe_subscription_id sub) (customer_ident c)
            (world (findWooCustomerByEmail svc (stripe_customer_email sc) w1))) = inr None ->
  result (handler sub w) = inr tt /\
  calls (handler sub w) =
    [ StripeRetrieveCustomer (stripe_subscription_customer sub);
      GetCustomers (stripe_customer_email sc);
      GetSubscriptions (customer_ident c) ].
Proof.
  intros Hh Hr Hc Hs.
  assert (C : calls (findWooCustomerByEmail svc (stripe_customer_email sc) w1)
              = [GetCustomers (stripe_customer_email sc)])
    by now rewrite findWooCustomerByEmail_run.
  assert (S := findWooSubscription_calls svc (stripe_subscription_id sub) (customer_ident c)
                 (world (findWooCustomerByEmail svc (stripe_customer_email sc) w1))).
  destruct Hh as [->| ->]; enter_handler Hr Hc; rewrite Hs; cbn; rewrite C, S;
    split; reflexivity.
Qed.

(** With a customer and a matched subscription, the last call of either
    handler is the status write; [status] is what the handler hands to it. *)
Lemma handlers_matched (sub : stripeSubscription) (w w1 : W) (sc : stripeCustomer)
    (c : customer) (woo : wooSubscription) :
  retrieveCustomer svc (stripe_subscription_customer sub) w = (inr sc, w1) ->
  result (findWooCustomerByEmail svc (stripe_customer_email sc) w1) = inr (Some c) ->
  result (findWooSubscription svc (stripe_subscription_id sub) (customer_ident c)
            (world (findWooCustomerByEmail svc (stripe_customer_email sc) w1)))
    = inr (Some woo) ->
  calls (handleSubscriptionUpdated svc sub w) =
    [ StripeRetrieveCustomer (stripe_subscription_customer sub);
      GetCustomers (stripe_customer_email sc);
      GetSubscriptions (customer_ident c);
      PutSubscription (subscription_id woo) (wooStatus (stripe_subscription_status sub)) ] /\
  calls (handleSubscriptionCancelled svc sub w) =
    [ StripeRetrieveCustomer (stripe_subscription_customer sub);
      GetCustomers (stripe_customer_email sc);
      GetSubscriptions (customer_ident c);
      PutSubscription (subscription_id woo) (wooStatus "cancelled") ].
Proof.
  intros Hr Hc Hs.
  assert (C : calls (findWooCustomerByEmail svc (stripe_customer_email sc) w1)
              = [GetCustomers (stripe_customer_email sc)])
    by now rewrite findWooCustomerByEmail_run.
  assert (S := findWooSubscription_calls svc (stripe_subscription_id sub) (customer_ident c)
                 (world (findWooCustomerByEmail svc (stripe_customer_email sc) w1))).
  split; enter_handler Hr Hc; rewrite Hs; cbv beta iota;
    rewrite updateWooSubscriptionStatus_run; cbn [result world calls]; rewrite C, S;
    match goal with
    | |- context [fst ?p] => destruct (fst p); reflexivity
    end.
Qed.

(** A paid invoice of a known customer without a matching subscription:
    the handler resolves and nothing is written. *)
Lemma handleInvoicePaid_skips (inv : invoice) (w w1 w2 : W) (sub : stripeSubscription)
    (sc : stripeCustomer) (c : customer) :
  retrieveSubscription svc (invoice_subscription inv) w = (inr sub, w1) ->
  retrieveCustomer svc (invoice_customer inv) w1 = (inr sc, w2) ->
  result (findWooCustomerByEmail svc (stripe_customer_email sc) w2) = inr (Some c) ->
  result (findWooSubscription svc (stripe_subscription_id sub) (customer_ident c)
            (world (findWooCustomerByEmail svc (stripe_customer_email sc) w2))) = inr None ->
  result (handleInvoicePaid svc inv w) = inr tt /\
  writes (calls (handleInvoicePaid svc inv w)) = [].
Proof.
  intros Hs Hr Hc Hn.
  assert (C : calls (findWooCustomerByEmail svc (stripe_customer_email sc) w2)
              = [GetCustomers (stripe_customer_email sc)])
    by now rewrite findWooCustomerByEmail_run.
  unfold handleInvoicePaid, try_catch, bind, await. cbv zeta.
  rewrite Hs. cbv beta iota. cbn [result world calls].
  rewrite Hr. cbv beta iota. cbn [result world calls].
  rewrite Hc. cbv beta iota.
  rewrite (processSubscriptionRenewal_no_match svc inv sub (customer_ident c) _ Hn).
  cbn. rewrite C. split; reflexivity.
Qed.

(** A paid invoice of a customer the back office does not know is an
    error, whose message ends with the processor customer's email as the
    template literal prints it: the email, [null], or [undefined] for a
    deleted customer. *)
Lemma handleInvoicePaid_no_customer (inv : invoice) (w w1 w2 : W) (sub : stripeSubscription)
    (sc : stripeCustomer) :
  retrieveSubscription svc (invoice_subscription inv) w = (inr sub, w1) ->
  retrieveCustomer svc (invoice_customer inv) w1 = (inr sc, w2) ->
  result (findWooCustomerByEmail svc (stripe_customer_email sc) w2) = inr None ->
  result (handleInvoicePaid svc inv w) =
    inl (Thrown ("No WooCommerce customer found for email: "
                 ++ match stripe_customer_email sc with
                    | Some email => email
                    | None => if stripe_customer_deleted sc then "undefined" else "null"
                    end)) /\
  writes (calls (handleInvoicePaid svc inv w)) = [].
Proof.
  intros Hs Hr Hc.
  assert (C : calls (findWooCustomerByEmail svc (stripe_customer_email sc) w2)
              = [GetCustomers (stripe_customer_email sc)])
    by now rewrite findWooCustomerByEmail_run.
  unfold handleInvoicePaid, try_catch, bind, await. cbv zeta.
  rewrite Hs. cbv beta iota. cbn [result world calls].
  rewrite Hr. cbv beta iota. cbn [result world calls].
  rewrite Hc. cbn. rewrite C. split; reflexivity.
Qed.

(** The dispatcher answers 500 exactly when the handler rejects. *)
Lemma stripeWebhook_response (req : webhookRequest) (ev : event) (w : W) :
  constructEvent svc req = inr ev ->
  result (stripeWebhook svc req w) =
    inr (match result (dispatch svc ev w) with
         | inl _ => serverError
         | inr _ => ok
         end).
Proof.
  intros H. unfold stripeWebhook. rewrite H.
  unfold try_catch, bind. cbv zeta.
  destruct (result (dispatch svc ev w)); reflexivity.
Qed.

(** C2: what the code does on a deleted subscription that the locator
    matches.  The literal [cancelled] the handler passes goes through the
    status translation, whose table has the key [canceled] only, so the
    status written to the matched subscription is the default [on-hold]. *)
Theorem handleSubscriptionCancelled_writes_on_hold (sub : stripeSubscription) (w w1 : W)
    (sc : stripeCustomer) (c : customer) (woo : wooSubscription) :
  retrieveCustomer svc (stripe_subscription_customer sub) w = (inr sc, w1) ->
  result (findWooCustomerByEmail svc (stripe_customer_email sc) w1) = inr (Some c) ->
  result (findWooSubscription svc (stripe_subscription_id sub) (customer_ident c)
            (world (findWooCustomerByEmail svc (stripe_customer_email sc) w1)))
    = inr (Some woo) ->
  writes (calls (handleSubscriptionCancelled svc sub w)) =
    [ PutSubscription (subscription_id woo) (JStr "on-hold") ] /\
  wooStatus "cancelled" = JStr "on-hold".
Proof.
  intros Hr Hc Hs. split; [|reflexivity].
  rewrite (proj2 (handlers_matched sub w w1 sc c woo Hr Hc Hs)). reflexivity.
Qed.

(** C10: on a subscription-updated or subscription-deleted event, when the
    back office has no customer for the processor customer's email the
    handler throws the error [No WooCommerce customer found for email: ...]
    (the email as the template literal prints it), having written nothing,
    and the dispatcher answers with status 500 and the body
    [Failed to process webhook]. *)
Theorem subscription_event_without_customer (sub : stripeSubscription) (ev : event)
    (w w1 : W) (sc : stripeCustomer) :
  ev = CustomerSubscriptionUpdated sub \/ ev = CustomerSubscriptionDeleted sub ->
  retrieveCustomer svc (stripe_subscription_customer sub) w = (inr sc, w1) ->
  result (findWooCustomerByEmail svc (stripe_customer_email sc) w1) = inr None ->
  result (dispatch svc ev w) =
    inl (Thrown ("No WooCommerce customer found for email: "
                 ++ match stripe_customer_email sc with
                    | Some email => email
                    | None => if stripe_customer_deleted sc then "undefined" else "null"
                    end)) /\
  writes (calls (dispatch svc ev w)) = [] /\
  forall req, constructEvent svc req = inr ev ->
              result (stripeWebhook svc req w) =
                inr {| status_code := 500; response_body := FailedToProcess |}.
Proof.
  intros Hev Hr Hc.
  assert (D : dispatch svc ev w =
    {| result := inl (noCustomer sc);
       world := world (findWooCustomerByEmail svc (stripe_customer_email sc) w1);
       calls := [ StripeRetrieveCustomer (stripe_subscription_customer sub);
                  GetCustomers (stripe_customer_email sc) ] |}).
  { destruct Hev as [->| ->]; simpl dispatch;
      apply (handlers_no_customer sub w w1 sc); auto. }
  split; [|split].
  - now rewrite D.
  - now rewrite D.
  - intros req Hreq. rewrite (stripeWebhook_response req ev w Hreq). now rewrite D.
Qed.

(** By contrast, a missing subscription is a soft skip: the handler
    resolves, nothing is written, and the dispatcher answers with status
    200 and the body [received]. *)
Lemma subscription_event_without_subscription (sub : stripeSubscription) (ev : event)
    (w w1 : W) (sc : stripeCustomer) (c : customer) :
  ev = CustomerSubscriptionUpdated sub \/ ev = CustomerSubscriptionDeleted sub ->
  retrieveCustomer svc (stripe_subscription_customer sub) w = (inr sc, w1) ->
  result (findWooCustomerByEmail svc (stripe_customer_email sc) w1) = inr (Some c) ->
  result (findWooSubscription svc (stripe_subscription_id sub) (customer_ident c)
            (world (findWooCustomerByEmail svc (stripe_customer_email sc) w1))) = inr None ->
  result (dispatch svc ev w) = inr tt /\
  writes (calls (dispatch svc ev w)) = [] /\
  forall req, constructEvent svc req = inr ev ->
              result (stripeWebhook svc req w) =
                inr {| status_code := 200; response_body := Received |}.
Proof.
  intros Hev Hr Hc Hs.
  assert (D : result (dispatch svc ev w) = inr tt /\
              calls (dispatch svc ev w) =
                [ StripeRetrieveCustomer (stripe_subscription_customer sub);
                  GetCustomers (stripe_customer_email sc);
                  GetSubscriptions (customer_ident c) ]).
  { destruct Hev as [->| ->]; simpl dispatch;
      apply (handlers_no_subscription sub w w1 sc c); auto. }
  destruct D as [D1 D2]. split; [assumption|split].
  - now rewrite D2.
  - intros req Hreq. rewrite (stripeWebhook_response req ev w Hreq). now rewrite D1.
Qed.

End Handlers.

Lemma handleSubscriptionCancelled_writes_on_hold_witness :
  writes (calls (handleSubscriptionCancelled Demo.svc Demo.sub_1 Demo.start)) =
    [ PutSubscription 31 (JStr "on-hold") ] /\
  wooStatus "cancelled" = JStr "on-hold".
Proof.
  apply (handleSubscriptionCancelled_writes_on_hold Demo.svc Demo.sub_1 Demo.start Demo.start
           {| stripe_customer_email := Some "a@example.com"; stripe_customer_deleted := false |} Demo.alice Demo.tagged);
    reflexivity.
Defined.

Lemma subscription_event_without_customer_witness :
  result (dispatch Demo.svc (CustomerSubscriptionDeleted Demo.sub_2) Demo.start)
    = inl (Thrown "No WooCommerce customer found for email: nobody@example.com") /\
  writes (calls (dispatch Demo.svc (CustomerSubscriptionDeleted Demo.sub_2) Demo.start)) = [] /\
  result (stripeWebhook Demo.svc
            {| body := "deleted-unknown-customer"; stripe_signature := Some "valid" |}
            Demo.start)
    = inr {| status_code := 500; response_body := FailedToProcess |}.
Proof.
  destruct (subscription_event_without_customer Demo.svc Demo.sub_2
              (CustomerSubscriptionDeleted Demo.sub_2) Demo.start Demo.start
              {| stripe_customer_email := Some "nobody@example.com"; stripe_customer_deleted := false |}
              (or_intror eq_refl) eq_refl eq_refl) as [R [C D]].
  split; [exact R|split; [exact C|]].
  apply D. reflexivity.
Defined.

(** ** The scenarios of the specification, run on the reference back office *)

(** Scenario A: a completed checkout of two units of the subscription
    product. *)
Example scenario_checkout :
  let o := stripeWebhook Demo.svc {| body := "checkout"; stripe_signature := Some "valid" |}
                         Demo.start in
  result o = inr ok /\
  Demo.shop_orders (world o) =
    [ {| order_id := 100;
         order_status := "processing";
         order_line_items := [ {| product_id := Some 123; wooLineItem_quantity := 2 |} ];
         order_meta_data := [ {| key := "stripe_checkout_id"; value := JStr "cs_1" |};
                              subscriptionTag "sub_1" ] |} ].
Proof. split; reflexivity. Qed.

(** Scenario B: a paid invoice when the customer has no subscription. *)
Example scenario_invoice_without_subscription :
  let o := stripeWebhook Demo.svc {| body := "paid"; stripe_signature := Some "valid" |}
                         Demo.unsubscribed in
  result o = inr ok /\ writes (calls o) = [] /\ world o = Demo.unsubscribed.
Proof. repeat split. Qed.

(** Scenario C: an updated subscription; the processor status [canceled]
    of the event is written as [cancelled], and [past_due] would be written
    as [on-hold]. *)
Example scenario_subscription_updated :
  writes (calls (stripeWebhook Demo.svc {| body := "updated"; stripe_signature := Some "valid" |}
                               Demo.start))
    = [ PutSubscription 31 (JStr "cancelled") ] /\
  wooStatus "past_due" = JStr "on-hold".
Proof. split; reflexivity. Qed.

(** A request whose signature does not verify is refused before any
    handler runs. *)
Example scenario_bad_signature :
  stripeWebhook Demo.svc {| body := "checkout"; stripe_signature := Some "forged" |} Demo.start
  = {| result := inr (badRequest "No signatures found matching the expected signature for payload.");
       world := Demo.start;
       calls := [] |}.
Proof. reflexivity. Qed.

(** ** How outcomes compose *)

Lemma writes_app (a b : list request) : writes (a ++ b) = (writes a ++ writes b)%list.
Proof. apply filter_app. Qed.

Section Composition.
Context {W : Type}.

(** A [catch] block that only throws the error again changes nothing. *)
Lemma try_catch_rethrow {A : Type} (m : M W A) (w : W) : try_catch m rethrow w = m w.
Proof.
  unfold try_catch, rethrow, throw.
  destruct (m w) as [[e|a] w' c]; simpl; [rewrite app_nil_r|]; reflexivity.
Qed.

Lemma writeCount_ret {A : Type} (a : A) (w : W) : writeCount (ret a w) = 0%nat.
Proof. reflexivity. Qed.

Lemma writeCount_throw {A : Type} (e : exn) (w : W) : writeCount (@throw W A e w) = 0%nat.
Proof. reflexivity. Qed.

Lemma writeCount_await {A : Type} (r : request) (op : W -> (string + A) * W) (w : W) :
  writeCount (await r op w) = if is_write r then 1%nat else 0%nat.
Proof.
  unfold writeCount, await. destruct (op w) as [res w']. simpl.
  destruct (is_write r); reflexivity.
Qed.

Lemma writeCount_bind {A B : Type} (m : M W A) (f : A -> M W B) (w : W) (n k : nat) :
  (writeCount (m w) <= n)%nat ->
  (forall a w', writeCount (f a w') <= k)%nat ->
  (writeCount (bind m f w) <= n + k)%nat.
Proof.
  unfold writeCount, bind. intros Hm Hf.
  destruct (result (m w)) as [e|a]; simpl; [lia|].
  rewrite writes_app, length_app. specialize (Hf a (world (m w))). lia.
Qed.

Lemma writeCount_try_catch {A : Type} (m : M W A) (h : exn -> M W A) (w : W) (n k : nat) :
  (writeCount (m w) <= n)%nat ->
  (forall e w', writeCount (h e w') <= k)%nat ->
  (writeCount (try_catch m h w) <= n + k)%nat.
Proof.
  unfold writeCount, try_catch. intros Hm Hh.
  destruct (result (m w)) as [e|a]; simpl; [|lia].
  rewrite writes_app, length_app. specialize (Hh e (world (m w))). lia.
Qed.

Lemma rejectsOnly_bind {A B : Type} (P : exn -> Prop) (m : M W A) (f : A -> M W B) (w : W) :
  rejectsOnly P (m w) ->
  (forall a, result (m w) = inr a -> rejectsOnly P (f a (world (m w)))) ->
  rejectsOnly P (bind m f w).
Proof.
  unfold rejectsOnly, bind. intros Hm Hf.
  destruct (result (m w)) as [e|a]; simpl; [assumption|]. now apply Hf.
Qed.

Lemma rejectsOnly_await {A : Type} (P : exn -> Prop) (r : request)
    (op : W -> (string + A) * W) (w : W) :
  (forall m, P (Upstream m)) -> rejectsOnly P (await r op w).
Proof.
  unfold rejectsOnly, await. intros H. destruct (op w) as [[m|a] w']; simpl; auto.
Qed.

Lemma rejectsOnly_ret {A : Type} (P : exn -> Prop) (a : A) (w : W) : rejectsOnly P (ret a w).
Proof. exact I. Qed.

End Composition.

Lemma Expected_Upstream (m : string) : Expected (Upstream m).
Proof. right. right. right. now exists m. Qed.

Lemma Expected_unmapped (priceId : string) : Expected (UnmappedProductError priceId).
Proof. right. left. now exists priceId. Qed.

Lemma Expected_no_customer (sc : stripeCustomer) : Expected (noCustomer sc).
Proof. right. right. left. now eexists. Qed.

Lemma promise_all_rejected (items : list lineItem) (e : exn) :
  promise_all (map toWooLineItem items) = inl e ->
  exists i, In i items /\ Unmapped i /\ e = UnmappedProductError (price_id i).
Proof.
  induction items as [|j items IH]; simpl; [discriminate|].
  destruct (toWooLineItem j) as [e'|li] eqn:E.
  - intros [= <-]. apply toWooLineItem_rejected in E as [Hu ->]. exists j. auto.
  - destruct (promise_all (map toWooLineItem items)) as [e'|l]; [|discriminate].
    intros [= <-]. destruct (IH eq_refl) as [i [Hin [Hu He]]]. exists i. auto.
Qed.

(** ** What each function can write and how it can fail *)

Section Budget.
Context {W : Type} (svc : Services W).

Lemma findWooCustomerByEmail_reads (email : option string) (w : W) :
  writeCount (findWooCustomerByEmail svc email w) = 0%nat.
Proof. now rewrite findWooCustomerByEmail_run. Qed.

Lemma findWooSubscription_reads (id : string) (customerId : Z) (w : W) :
  writeCount (findWooSubscription svc id customerId w) = 0%nat.
Proof. unfold writeCount. now rewrite findWooSubscription_calls. Qed.

Lemma updateWooSubscriptionStatus_one_write (id : Z) (status : string) (w : W) :
  writeCount (updateWooSubscriptionStatus svc id status w) = 1%nat.
Proof. now rewrite updateWooSubscriptionStatus_run. Qed.

Lemma getOrCreateWooCustomer_budget (d : option customerDetails) (w : W) :
  (writeCount (getOrCreateWooCustomer svc d w) <= 1)%nat.
Proof.
  unfold getOrCreateWooCustomer. destruct d as [d|]; [|apply Nat.le_0_l].
  destruct (negb (present (email d))); [apply Nat.le_0_l|].
  rewrite try_catch_rethrow. apply (writeCount_bind _ _ _ 0 1).
  - now rewrite writeCount_await.
  - intros [[|first rest]|] w'; try apply Nat.le_0_l;
      apply (writeCount_bind _ _ _ 1 0); try (now rewrite writeCount_await);
      intros; apply Nat.le_0_l.
Qed.

Lemma createWooOrder_budget (s : session) (items : list lineItem) (customerId : Z) (w : W) :
  (writeCount (createWooOrder svc s items customerId w) <= 2)%nat.
Proof.
  unfold createWooOrder. rewrite try_catch_rethrow. apply (writeCount_bind _ _ _ 0 2).
  - destruct (promise_all (map toWooLineItem items)); apply Nat.le_0_l.
  - intros lis w'. destruct (customer_details s) as [d|]; [|apply Nat.le_0_l].
    cbv zeta. apply (writeCount_bind _ _ _ 1 1); [now rewrite writeCount_await|].
    intros response w''.
    destruct (existsb isSubscriptionItem items && present (subscription s));
      [|apply Nat.le_0_l].
    apply (writeCount_bind _ _ _ 1 0); [now rewrite writeCount_await|].
    intros; apply Nat.le_0_l.
Qed.

Lemma processSubscriptionRenewal_budget (inv : invoice) (sub : stripeSubscription)
    (customerId : Z) (w : W) :
  (writeCount (processSubscriptionRenewal svc inv sub customerId w) <= 2)%nat.
Proof.
  unfold processSubscriptionRenewal. rewrite try_catch_rethrow.
  apply (writeCount_bind _ _ _ 0 2).
  - now rewrite findWooSubscription_reads.
  - intros [woo|] w'; [|apply Nat.le_0_l].
    cbv zeta. apply (writeCount_bind _ _ _ 1 1); [now rewrite writeCount_await|].
    intros response w''. apply (writeCount_bind _ _ _ 1 0).
    + now rewrite updateWooSubscriptionStatus_one_write.
    + intros; apply Nat.le_0_l.
Qed.

Lemma subscription_handlers_budget (sub : stripeSubscription) (w : W) :
  (writeCount (handleSubscriptionUpdated svc sub w) <= 1)%nat /\
  (writeCount (handleSubscriptionCancelled svc sub w) <= 1)%nat.
Proof.
  split; unfold handleSubscriptionUpdated, handleSubscriptionCancelled;
    rewrite try_catch_rethrow;
    (apply (writeCount_bind _ _ _ 0 1); [now rewrite writeCount_await|]);
    intros sc w1;
    (apply (writeCount_bind _ _ _ 0 1); [now rewrite findWooCustomerByEmail_reads|]);
    intros [c|] w2; try apply Nat.le_0_l;
    (apply (writeCount_bind _ _ _ 0 1); [now rewrite findWooSubscription_reads|]);
    intros [woo|] w3; try apply Nat.le_0_l;
    (apply (writeCount_bind _ _ _ 1 0);
       [now rewrite updateWooSubscriptionStatus_one_write|]);
    intros; apply Nat.le_0_l.
Qed.

(** No event makes the bridge write more than its kind allows: three writes
    for a checkout (customer, order, amend), two for a paid invoice (order,
    status), one for a subscription event, none for any other event,
    whatever the two systems answer. *)
Theorem dispatch_write_budget (ev : event) (w : W) :
  (writeCount (dispatch svc ev w) <= writeBudget ev)%nat.
Proof.
  destruct ev as [s|inv|sub|sub|type]; simpl.
  - unfold handleCheckoutCompleted. rewrite try_catch_rethrow.
    apply (writeCount_bind _ _ _ 0 3); [now rewrite writeCount_await|].
    intros items w1. apply (writeCount_bind _ _ _ 1 2).
    + apply getOrCreateWooCustomer_budget.
    + intros c w2. apply (writeCount_bind _ _ _ 2 0).
      * apply createWooOrder_budget.
      * intros; apply Nat.le_0_l.
  - unfold handleInvoicePaid. rewrite try_catch_rethrow.
    apply (writeCount_bind _ _ _ 0 2); [now rewrite writeCount_await|].
    intros sub w1. apply (writeCount_bind _ _ _ 0 2); [now rewrite writeCount_await|].
    intros sc w2.
    apply (writeCount_bind _ _ _ 0 2); [now rewrite findWooCustomerByEmail_reads|].
    intros [c|] w3; [|apply Nat.le_0_l].
    apply (writeCount_bind _ _ _ 2 0).
    + apply processSubscriptionRenewal_budget.
    + intros; apply Nat.le_0_l.
  - apply subscription_handlers_budget.
  - apply subscription_handlers_budget.
  - apply Nat.le_0_l.
Qed.

End Budget.

Example dispatch_write_budget_reached :
  writeCount (dispatch Demo.svc (CheckoutSessionCompleted Demo.checkout) Demo.empty) = 3%nat /\
  writeCount (dispatch Demo.svc (InvoicePaid Demo.in_1) Demo.start) = 2%nat /\
  writeCount (dispatch Demo.svc (CustomerSubscriptionUpdated Demo.sub_1) Demo.start) = 1%nat.
Proof. repeat split. Qed.

Section Failures.
Context {W : Type} (svc : Services W).

Lemma getOrCreateWooCustomer_resolved (d : option customerDetails) (w : W) (c : customer) :
  result (getOrCreateWooCustomer svc d w) = inr c ->
  exists d', d = Some d' /\ present (email d') = true.
Proof.
  unfold getOrCreateWooCustomer. destruct d as [d|]; [|discriminate].
  destruct (present (email d)) eqn:P; [|discriminate]. intros _. now exists d.
Qed.

Lemma getOrCreateWooCustomer_rejects (d : option customerDetails) (w : W) :
  rejectsOnly Expected (getOrCreateWooCustomer svc d w).
Proof.
  unfold getOrCreateWooCustomer. destruct d as [d|]; [|now left].
  destruct (negb (present (email d))); [now left|].
  rewrite try_catch_rethrow. apply rejectsOnly_bind.
  - apply rejectsOnly_await, Expected_Upstream.
  - intros [[|first rest]|] _; try exact I;
      (apply rejectsOnly_bind; [apply rejectsOnly_await, Expected_Upstream|intros; exact I]).
Qed.

Lemma createWooOrder_rejects (s : session) (d : customerDetails) (items : list lineItem)
    (customerId : Z) (w : W) :
  customer_details s = Some d ->
  rejectsOnly Expected (createWooOrder svc s items customerId w).
Proof.
  intros Hd. unfold createWooOrder. rewrite try_catch_rethrow. apply rejectsOnly_bind.
  - destruct (promise_all (map toWooLineItem items)) as [e|lis] eqn:E; [|exact I].
    destruct (promise_all_rejected items e E) as [i [_ [_ ->]]]. apply Expected_unmapped.
  - intros lis _. rewrite Hd. cbv zeta. apply rejectsOnly_bind.
    + apply rejectsOnly_await, Expected_Upstream.
    + intros response _.
      destruct (existsb isSubscriptionItem items && present (subscription s)); [|exact I].
      apply rejectsOnly_bind; [apply rejectsOnly_await, Expected_Upstream|intros; exact I].
Qed.

Lemma findWooCustomerByEmail_rejects (email : option string) (w : W) :
  rejectsOnly Expected (findWooCustomerByEmail svc email w).
Proof.
  rewrite findWooCustomerByEmail_run. unfold rejectsOnly. simpl.
  destruct (fst (getCustomers svc email w)); [apply Expected_Upstream|exact I].
Qed.

Lemma findWooSubscription_rejects (id : string) (customerId : Z) (w : W) :
  rejectsOnly Expected (findWooSubscription svc id customerId w).
Proof.
  destruct (getSubscriptions svc customerId w) as [[m|response] w'] eqn:E.
  - rewrite (findWooSubscription_rejected _ _ _ _ _ _ E). apply Expected_Upstream.
  - rewrite (findWooSubscription_resolved _ _ _ _ _ _ E). exact I.
Qed.

Lemma updateWooSubscriptionStatus_rejects (id : Z) (status : string) (w : W) :
  rejectsOnly Expected (updateWooSubscriptionStatus svc id status w).
Proof.
  rewrite updateWooSubscriptionStatus_run. unfold rejectsOnly. simpl.
  destruct (fst (putSubscription svc id (wooStatus status) w));
    [apply Expected_Upstream|exact I].
Qed.

Lemma processSubscriptionRenewal_rejects (inv : invoice) (sub : stripeSubscription)
    (customerId : Z) (w : W) :
  rejectsOnly Expected (processSubscriptionRenewal svc inv sub customerId w).
Proof.
  unfold processSubscriptionRenewal. rewrite try_catch_rethrow. apply rejectsOnly_bind.
  - apply findWooSubscription_rejects.
  - intros [woo|] _; [|exact I]. cbv zeta. apply rejectsOnly_bind.
    + apply rejectsOnly_await, Expected_Upstream.
    + intros response _. apply rejectsOnly_bind;
        [apply updateWooSubscriptionStatus_rejects|intros; exact I].
Qed.

Lemma subscription_handlers_reject (sub : stripeSubscription) (w : W) :
  rejectsOnly Expected (handleSubscriptionUpdated svc sub w) /\
  rejectsOnly Expected (handleSubscriptionCancelled svc sub w).
Proof.
  split; unfold handleSubscriptionUpdated, handleSubscriptionCancelled;
    rewrite try_catch_rethrow;
    (apply rejectsOnly_bind; [apply rejectsOnly_await, Expected_Upstream|]);
    intros sc _;
    (apply rejectsOnly_bind; [apply findWooCustomerByEmail_rejects|]);
    intros [c|] _; try apply Expected_no_customer;
    (apply rejectsOnly_bind; [apply findWooSubscription_rejects|]);
    intros [woo|] _; try exact I;
    (apply rejectsOnly_bind; [apply updateWooSubscriptionStatus_rejects|intros; exact I]).
Qed.

(** For every event, and for answers of the two systems that have the
    shape the code reads (a list response with or without its data, a
    created order with its metadata array, a subscription with its line
    items), a handler that rejects does so with [Customer email is
    required], with [No product mapping found for Stripe price ID: ...],
    with [No WooCommerce customer found for email: ...], or with the error a
    client call rejected with.  In particular the read of
    [session.customer_details.name] in the Order Builder cannot fail inside
    the checkout handler, which has rejected a session without details
    before. *)
Theorem dispatch_rejects_only_expected (ev : event) (w : W) :
  rejectsOnly Expected (dispatch svc ev w).
Proof.
  destruct ev as [s|inv|sub|sub|type]; simpl.
  - unfold handleCheckoutCompleted. rewrite try_catch_rethrow. apply rejectsOnly_bind.
    + apply rejectsOnly_await, Expected_Upstream.
    + intros items _. apply rejectsOnly_bind.
      * apply getOrCreateWooCustomer_rejects.
      * intros c Hc. apply getOrCreateWooCustomer_resolved in Hc as [d [Hd _]].
        apply rejectsOnly_bind; [now apply (createWooOrder_rejects s d)|intros; exact I].
  - unfold handleInvoicePaid. rewrite try_catch_rethrow. apply rejectsOnly_bind.
    + apply rejectsOnly_await, Expected_Upstream.
    + intros sub _. apply rejectsOnly_bind.
      * apply rejectsOnly_await, Expected_Upstream.
      * intros sc _. apply rejectsOnly_bind; [apply findWooCustomerByEmail_rejects|].
        intros [c|] _; [|apply Expected_no_customer].
        apply rejectsOnly_bind; [apply processSubscriptionRenewal_rejects|intros; exact I].
  - apply subscription_handlers_reject.
  - apply subscription_handlers_reject.
  - exact I.
Qed.

(** The endpoint itself never rejects.  It answers with status 400 and
    the text [Webhook Error: ] followed by the message of the verification
    error exactly when the signature check fails, and then no handler runs:
    nothing is called and the world is as it was.  Otherwise it makes the
    calls of the handler and answers with status 200 and the body
    [received] when the handler resolves, and with status 500 and the body
    [Failed to process webhook], whatever the error, when it rejects. *)
Theorem stripeWebhook_answers (req : webhookRequest) (w : W) :
  match constructEvent svc req with
  | inl message =>
      stripeWebhook svc req w =
        {| result := inr {| status_code := 400;
                            response_body := WebhookError ("Webhook Error: " ++ message) |};
           world := w;
           calls := [] |}
  | inr ev =>
      result (stripeWebhook svc req w) =
        inr (match result (dispatch svc ev w) with
             | inl _ => {| status_code := 500; response_body := FailedToProcess |}
             | inr _ => {| status_code := 200; response_body := Received |}
             end) /\
      calls (stripeWebhook svc req w) = calls (dispatch svc ev w) /\
      world (stripeWebhook svc req w) = world (dispatch svc ev w)
  end.
Proof.
  unfold stripeWebhook. destruct (constructEvent svc req) as [message|ev]; [reflexivity|].
  unfold try_catch, bind. cbv zeta.
  destruct (result (dispatch svc ev w)); simpl; rewrite ?app_nil_r; repeat split.
Qed.

End Failures.

(** ** More on the Order Builder and the checkout handler *)

Lemma isSubscriptionItem_true (item : lineItem) :
  isSubscriptionItem item = true -> SubscriptionMapped item.
Proof.
  unfold isSubscriptionItem.
  destruct (Js.get productMapping (price_id item)) as [m| |] eqn:E; try discriminate.
  intros H. exists m. split; [now apply get_Own_In|assumption].
Qed.

Lemma mappedLineItem_entry (item : lineItem) :
  Mapped item ->
  exists m, In (price_id item, m) productMapping /\
            product_id (mappedLineItem item) = Some (productId m) /\
            wooLineItem_quantity (mappedLineItem item) = quantity item.
Proof.
  intros [m H]. apply In_own_property in H as [m' H].
  exists m'. unfold mappedLineItem. rewrite H.
  split; [now apply own_property_In|split; reflexivity].
Qed.

Section OrderBuilder.
Context {W : Type} (svc : Services W).

Lemma createWooOrder_rejected_items (s : session) (items : list lineItem) (customerId : Z)
    (w : W) (e : exn) :
  promise_all (map toWooLineItem items) = inl e ->
  createWooOrder svc s items customerId w = {| result := inl e; world := w; calls := [] |}.
Proof.
  intros E. unfold createWooOrder, try_catch, bind. now rewrite E.
Qed.

(** What the Order Builder does once the line items are mapped and the
    customer details are there. *)
Lemma createWooOrder_posts (s : session) (d : customerDetails) (items : list lineItem)
    (customerId : Z) (w : W) :
  customer_details s = Some d ->
  (forall i, In i items -> Mapped i) ->
  hd_error (calls (createWooOrder svc s items customerId w)) =
    Some (PostOrders (checkoutOrderData s d (map mappedLineItem items) customerId)).
Proof.
  intros Hd Hm. unfold createWooOrder. rewrite try_catch_rethrow.
  unfold bind, await. rewrite (promise_all_mapped items Hm).
  cbn [settle ret result world calls app]. rewrite Hd. cbv zeta beta iota.
  destruct (postOrders svc _ w) as [[m|created] w1]; cbn [result world calls];
    [reflexivity|].
  destruct (existsb isSubscriptionItem items && present (subscription s));
    [|reflexivity].
  destruct (putOrder svc _ _ w1) as [[m|amended] w2]; reflexivity.
Qed.

(** A checkout without a subscription: for a session with customer details
    whose line items are all mapped, when no item is mapped to a
    subscription product or the session has no subscription id, the Order
    Builder makes one call only, the creation of the order, and hands back
    what the back office answered; there is no amend. *)
Theorem createWooOrder_single_write (s : session) (d : customerDetails)
    (items : list lineItem) (customerId : Z) (w w1 : W) (answer : string + order) :
  customer_details s = Some d ->
  (forall i, In i items -> Mapped i) ->
  (forall i, In i items -> ~ SubscriptionMapped i) \/
    subscription s = None \/ subscription s = Some "" ->
  postOrders svc (checkoutOrderData s d (map mappedLineItem items) customerId) w
    = (answer, w1) ->
  createWooOrder svc s items customerId w =
    {| result := settled answer;
       world := w1;
       calls := [ PostOrders (checkoutOrderData s d (map mappedLineItem items) customerId) ] |}.
Proof.
  intros Hd Hm Hno Hpost.
  assert (C : existsb isSubscriptionItem items && present (subscription s) = false).
  { destruct Hno as [Hno|Hno].
    - apply andb_false_iff. left.
      destruct (existsb isSubscriptionItem items) eqn:E; [|reflexivity].
      apply existsb_exists in E as [i [Hin Hi]].
      destruct (Hno i Hin). now apply isSubscriptionItem_true.
    - apply andb_false_iff. right. now apply present_false. }
  unfold createWooOrder. rewrite try_catch_rethrow.
  unfold bind, await. rewrite (promise_all_mapped items Hm).
  cbn [settle ret result world calls app]. rewrite Hd. cbv zeta beta iota.
  rewrite Hpost. destruct answer as [m|created]; cbn [result world calls settled];
    [reflexivity|].
  rewrite C. cbn. reflexivity.
Qed.

(** The order that is posted: for a session with customer details whose
    line items are all mapped, the first call of the Order Builder is the
    creation of an order for the given customer, marked paid, paid by
    stripe, with one line item per checkout item, in the same order, each
    with the product id of the table and the quantity of the checkout
    item. *)
Theorem createWooOrder_payload (s : session) (d : customerDetails) (items : list lineItem)
    (customerId : Z) (w : W) :
  customer_details s = Some d ->
  (forall i, In i items -> Mapped i) ->
  exists data,
    hd_error (calls (createWooOrder svc s items customerId w)) = Some (PostOrders data) /\
    customer_id data = customerId /\
    set_paid data = true /\
    payment_method data = "stripe" /\
    Forall2 (fun item li =>
               exists m, In (price_id item, m) productMapping /\
                         product_id li = Some (productId m) /\
                         wooLineItem_quantity li = quantity item)
            items (line_items data).
Proof.
  intros Hd Hm. eexists. split; [exact (createWooOrder_posts s d items customerId w Hd Hm)|].
  repeat split. simpl.
  induction items as [|i items IH]; [constructor|].
  simpl. constructor.
  - apply mappedLineItem_entry. apply Hm. now left.
  - apply IH. intros j Hj. apply Hm. now right.
Qed.

Lemma createWooOrder_writes_only (s : session) (items : list lineItem) (customerId : Z)
    (w : W) :
  writes (calls (createWooOrder svc s items customerId w))
    = calls (createWooOrder svc s items customerId w).
Proof.
  unfold createWooOrder. rewrite try_catch_rethrow. unfold bind, await.
  destruct (promise_all (map toWooLineItem items)) as [e|lis]; [reflexivity|].
  cbn [settle ret result world calls app].
  destruct (customer_details s) as [d|]; [|reflexivity]. cbv zeta beta iota.
  destruct (postOrders svc _ w) as [[m|created] w1]; cbn [result world calls];
    [reflexivity|].
  destruct (existsb isSubscriptionItem items && present (subscription s));
    [|reflexivity].
  destruct (putOrder svc _ _ w1) as [[m|amended] w2]; reflexivity.
Qed.

(** The Order Builder never reads the back office: every call it makes is
    a write.  So it cannot know whether the checkout was handled before:
    for a session with customer details whose line items are all mapped,
    its first call is the same creation of an order in every world. *)
Theorem createWooOrder_never_reads (s : session) (items : list lineItem) (customerId : Z)
    (w : W) :
  writes (calls (createWooOrder svc s items customerId w))
    = calls (createWooOrder svc s items customerId w) /\
  (forall d, customer_details s = Some d ->
             (forall i, In i items -> Mapped i) ->
             forall w',
               hd_error (calls (createWooOrder svc s items customerId w'))
               = hd_error (calls (createWooOrder svc s items customerId w)) /\
               exists data,
                 hd_error (calls (createWooOrder svc s items customerId w))
                 = Some (PostOrders data)).
Proof.
  split; [apply createWooOrder_writes_only|].
  intros d Hd Hm w'. rewrite !(createWooOrder_posts s d items customerId _ Hd Hm).
  split; [reflexivity|]. now eexists.
Qed.

(** A checkout whose contact details lack an email: once the line items
    are listed the handler rejects with the validation error, and the back
    office has not been called at all. *)
Theorem handleCheckoutCompleted_without_email (s : session) (w w1 : W)
    (items : list lineItem) :
  listLineItems svc (session_id s) w = (inr items, w1) ->
  lacksEmail (customer_details s) ->
  handleCheckoutCompleted svc s w =
    {| result := inl ValidationError;
       world := w1;
       calls := [StripeListLineItems (session_id s)] |}.
Proof.
  intros Hl He. unfold handleCheckoutCompleted. rewrite try_catch_rethrow.
  unfold bind, await. rewrite Hl. cbn [result world calls].
  now rewrite (getOrCreateWooCustomer_invalid svc _ w1 He).
Qed.

(** The customer is reconciled before the line items are looked at: when a
    listed item has a price id found neither in the table nor on
    [Object.prototype], the handler rejects with the unmapped-product error
    and no order is posted, but the calls of the Customer Reconciler have
    been made; a customer it created stays created. *)
Theorem handleCheckoutCompleted_unmapped (s : session) (w w1 : W) (items : list lineItem)
    (c : customer) :
  listLineItems svc (session_id s) w = (inr items, w1) ->
  result (getOrCreateWooCustomer svc (customer_details s) w1) = inr c ->
  (exists i, In i items /\ Unmapped i /\ ~ In (price_id i) object_prototype_keys) ->
  exists i,
    In i items /\ Unmapped i /\
    handleCheckoutCompleted svc s w =
      {| result := inl (UnmappedProductError (price_id i));
         world := world (getOrCreateWooCustomer svc (customer_details s) w1);
         calls := StripeListLineItems (session_id s)
                  :: calls (getOrCreateWooCustomer svc (customer_details s) w1) |}.
Proof.
  intros Hl Hc Hu. destruct (promise_all_unmapped items Hu) as [i [Hin [Hi E]]].
  exists i. repeat split; try assumption.
  unfold handleCheckoutCompleted. rewrite try_catch_rethrow.
  unfold bind, await. rewrite Hl. cbn [result world calls]. rewrite Hc.
  rewrite (createWooOrder_rejected_items s items _ _ _ E). cbn.
  now rewrite app_nil_r.
Qed.

End OrderBuilder.

Lemma createWooOrder_single_write_witness :
  createWooOrder Demo.svc Cases.one_off [Cases.book] 7 Demo.start =
    {| result := inr {| order_id := 100;
                        order_status := "processing";
                        order_line_items :=
                          [ {| product_id := Some 456; wooLineItem_quantity := 1 |} ];
                        order_meta_data :=
                          [ {| key := "stripe_checkout_id"; value := JStr "cs_2" |} ] |};
       world := snd (Demo.demo_postOrders
                       (checkoutOrderData Cases.one_off Demo.details
                          (map mappedLineItem [Cases.book]) 7) Demo.start);
       calls := [ PostOrders (checkoutOrderData Cases.one_off Demo.details
                                (map mappedLineItem [Cases.book]) 7) ] |}.
Proof.
  apply (createWooOrder_single_write Demo.svc Cases.one_off Demo.details [Cases.book] 7
           Demo.start _ (inr _)).
  - reflexivity.
  - intros i [<-|[]]. eexists. right. left. reflexivity.
  - right. left. reflexivity.
  - reflexivity.
Defined.

Lemma createWooOrder_payload_witness :
  exists data,
    hd_error (calls (createWooOrder Demo.svc Demo.checkout [Cases.plan; Cases.book] 7
                       Demo.start)) = Some (PostOrders data) /\
    customer_id data = 7 /\
    set_paid data = true /\
    payment_method data = "stripe" /\
    Forall2 (fun item li =>
               exists m, In (price_id item, m) productMapping /\
                         product_id li = Some (productId m) /\
                         wooLineItem_quantity li = quantity item)
            [Cases.plan; Cases.book] (line_items data).
Proof.
  apply (createWooOrder_payload Demo.svc Demo.checkout Demo.details
           [Cases.plan; Cases.book] 7 Demo.start).
  - reflexivity.
  - intros i [<-|[<-|[]]]; eexists; [left|right; left]; reflexivity.
Defined.

Lemma createWooOrder_never_reads_witness :
  hd_error (calls (createWooOrder Demo.svc Demo.checkout [Cases.plan] 7 Demo.empty))
    = hd_error (calls (createWooOrder Demo.svc Demo.checkout [Cases.plan] 7 Demo.start)) /\
  exists data,
    hd_error (calls (createWooOrder Demo.svc Demo.checkout [Cases.plan] 7 Demo.start))
      = Some (PostOrders data).
Proof.
  apply (proj2 (createWooOrder_never_reads Demo.svc Demo.checkout [Cases.plan] 7 Demo.start)
           Demo.details).
  - reflexivity.
  - intros i [<-|[]]. eexists. left. reflexivity.
Defined.

Lemma handleCheckoutCompleted_without_email_witness :
  handleCheckoutCompleted Demo.svc Cases.anonymous_checkout Cases.market =
    {| result := inl ValidationError;
       world := Cases.market;
       calls := [StripeListLineItems "cs_4"] |}.
Proof.
  apply (handleCheckoutCompleted_without_email Demo.svc Cases.anonymous_checkout
           Cases.market Cases.market [Cases.book]).
  - reflexivity.
  - left. reflexivity.
Defined.

Lemma handleCheckoutCompleted_unmapped_witness :
  exists i,
    In i [Cases.plan; Cases.unknown] /\ Unmapped i /\
    handleCheckoutCompleted Demo.svc Cases.unmapped_checkout Cases.market =
      {| result := inl (UnmappedProductError (price_id i));
         world := world (getOrCreateWooCustomer Demo.svc (Some Cases.newcomer) Cases.market);
         calls := StripeListLineItems "cs_3"
                  :: calls (getOrCreateWooCustomer Demo.svc (Some Cases.newcomer)
                              Cases.market) |}.
Proof.
  apply (handleCheckoutCompleted_unmapped Demo.svc Cases.unmapped_checkout Cases.market
           Cases.market [Cases.plan; Cases.unknown]
           {| customer_ident := 100; customer_email := "bob@example.com" |}).
  - reflexivity.
  - reflexivity.
  - exists Cases.unknown. split; [right; now left|split].
    + unfold Unmapped. apply own_property_None. reflexivity.
    + intros H. apply mem_In in H. discriminate.
Defined.

(** The unmapped checkout of a newcomer leaves the newcomer in the shop. *)
Example handleCheckoutCompleted_unmapped_leaves_customer :
  writes (calls (handleCheckoutCompleted Demo.svc Cases.unmapped_checkout Cases.market))
    = [PostCustomers (customerData_of Cases.newcomer)] /\
  Demo.shop_customers
    (world (handleCheckoutCompleted Demo.svc Cases.unmapped_checkout Cases.market))
    = [Demo.alice; {| customer_ident := 100; customer_email := "bob@example.com" |}] /\
  Demo.shop_orders
    (world (handleCheckoutCompleted Demo.svc Cases.unmapped_checkout Cases.market)) = [].
Proof. repeat split. Qed.

(** ** Names *)

Lemma split_head_spaceless (a : string) : spaceless a = true -> split_head a = a.
Proof.
  induction a as [|c a IH]; simpl; [reflexivity|].
  destruct (Ascii.eqb c " "); simpl; [discriminate|]. intros H. now rewrite IH.
Qed.

Lemma split_tail_spaceless (a : string) : spaceless a = true -> split_tail a = "".
Proof.
  induction a as [|c a IH]; simpl; [reflexivity|].
  destruct (Ascii.eqb c " "); simpl; [discriminate|]. exact IH.
Qed.

Lemma split_head_at_space (a b : string) :
  spaceless a = true -> split_head (a ++ String " " b) = a.
Proof.
  induction a as [|c a IH]; simpl; [reflexivity|].
  destruct (Ascii.eqb c " "); simpl; [discriminate|]. intros H. now rewrite IH.
Qed.

Lemma split_tail_at_space (a b : string) :
  spaceless a = true -> split_tail (a ++ String " " b) = b.
Proof.
  induction a as [|c a IH]; simpl; [reflexivity|].
  destruct (Ascii.eqb c " "); simpl; [discriminate|]. exact IH.
Qed.

Lemma present_at_space (a b : string) : present (Some (a ++ String " " b)) = true.
Proof. destruct a; reflexivity. Qed.

Section Names.
Context {W : Type} (svc : Services W).

(** The only customer the reconciler posts is the one built from the
    contact details. *)
Lemma getOrCreateWooCustomer_posted (d : customerDetails) (w : W) (data : customerData) :
  In (PostCustomers data) (calls (getOrCreateWooCustomer svc (Some d) w)) ->
  data = customerData_of d.
Proof.
  destruct (present (email d)) eqn:P.
  - rewrite getOrCreateWooCustomer_valid
      by (intros L; apply present_false in L; congruence).
    destruct (getCustomers svc (email d) w) as [[m|[[|first rest]|]] w1]; simpl;
      intros H; repeat (destruct H as [H|H]; try discriminate; try contradiction);
      congruence.
  - rewrite getOrCreateWooCustomer_invalid by (now apply present_false).
    intros [].
Qed.

(** The only order the builder posts is the checkout order built from the
    session's contact details. *)
Lemma createWooOrder_posted (s : session) (items : list lineItem) (customerId : Z) (w : W)
    (data : orderData) :
  In (PostOrders data) (calls (createWooOrder svc s items customerId w)) ->
  exists d lis, customer_details s = Some d /\
                data = checkoutOrderData s d lis customerId.
Proof.
  unfold createWooOrder. rewrite try_catch_rethrow. unfold bind, await.
  destruct (promise_all (map toWooLineItem items)) as [e|lis]; [intros []|].
  cbn [settle ret result world calls app].
  destruct (customer_details s) as [d|]; [|intros []]. cbv zeta beta iota.
  intros H. exists d, lis. split; [reflexivity|].
  destruct (postOrders svc _ w) as [[m|created] w1]; cbn [result world calls] in H.
  - destruct H as [H|[]]. congruence.
  - destruct (existsb isSubscriptionItem items && present (subscription s)).
    + destruct (putOrder svc _ _ w1) as [[m|amended] w2]; cbn in H;
        destruct H as [H|[H|[]]]; try discriminate; congruence.
    + destruct H as [H|[]]. congruence.
Qed.

(** The display name is cut at its first space: what stands before it is
    the first name, all that follows (further spaces included) the last
    name; a name without a space is a first name with an empty last name,
    and without a name both are empty.  These two names are what every
    customer the reconciler posts carries, at its top level and in its
    billing and shipping blocks, and what the billing and shipping blocks
    of every order the builder posts carry. *)
Theorem name_is_cut_at_first_space (d : customerDetails) (a b first last : string) :
  spaceless a = true ->
  (name d = Some (a ++ String " " b) /\ first = a /\ last = b) \/
  (name d = Some a /\ first = a /\ last = "") \/
  (name d = None /\ first = "" /\ last = "") ->
  (forall w data,
     In (PostCustomers data) (calls (getOrCreateWooCustomer svc (Some d) w)) ->
     customerData_first_name data = first /\
     customerData_last_name data = last /\
     first_name (billing_postal (customerData_billing data)) = first /\
     last_name (billing_postal (customerData_billing data)) = last /\
     first_name (customerData_shipping data) = first /\
     last_name (customerData_shipping data) = last) /\
  (forall s items customerId w data,
     customer_details s = Some d ->
     In (PostOrders data) (calls (createWooOrder svc s items customerId w)) ->
     exists bill ship,
       orderData_billing data = Some bill /\
       orderData_shipping data = Some ship /\
       first_name (billing_postal bill) = first /\
       last_name (billing_postal bill) = last /\
       first_name ship = first /\
       last_name ship = last).
Proof.
  intros Ha Hname.
  assert (N : first_name_of d = first /\ last_name_of d = last).
  { unfold first_name_of, last_name_of.
    destruct Hname as [[-> [-> ->]]|[[-> [-> ->]]|[-> [-> ->]]]].
    - rewrite present_at_space. simpl or_empty.
      now rewrite split_head_at_space, split_tail_at_space.
    - simpl or_empty.
      rewrite split_head_spaceless, split_tail_spaceless by assumption.
      destruct a; simpl; split; reflexivity.
    - split; reflexivity. }
  destruct N as [Nf Nl]. split.
  - intros w data H. apply getOrCreateWooCustomer_posted in H. subst data.
    simpl. repeat split; assumption.
  - intros s items customerId w data Hd H.
    apply createWooOrder_posted in H as [d' [lis [Hd' ->]]].
    assert (d' = d) by congruence. subst d'.
    eexists. eexists. split; [reflexivity|split; [reflexivity|]].
    simpl. repeat split; assumption.
Qed.

End Names.

Lemma name_is_cut_at_first_space_witness :
  (customerData_first_name (customerData_of Demo.details) = "Alice" /\
   customerData_last_name (customerData_of Demo.details) = "B Cooper" /\
   first_name (billing_postal (customerData_billing (customerData_of Demo.details)))
     = "Alice" /\
   last_name (billing_postal (customerData_billing (customerData_of Demo.details)))
     = "B Cooper" /\
   first_name (customerData_shipping (customerData_of Demo.details)) = "Alice" /\
   last_name (customerData_shipping (customerData_of Demo.details)) = "B Cooper") /\
  exists bill ship,
    orderData_billing (checkoutOrderData Demo.checkout Demo.details
                         (map mappedLineItem [Cases.plan]) 7) = Some bill /\
    orderData_shipping (checkoutOrderData Demo.checkout Demo.details
                          (map mappedLineItem [Cases.plan]) 7) = Some ship /\
    first_name (billing_postal bill) = "Alice" /\
    last_name (billing_postal bill) = "B Cooper" /\
    first_name ship = "Alice" /\
    last_name ship = "B Cooper".
Proof.
  destruct (name_is_cut_at_first_space Demo.svc Demo.details "Alice" "B Cooper"
              "Alice" "B Cooper" eq_refl (or_introl (conj eq_refl (conj eq_refl eq_refl))))
    as [C O].
  split.
  - apply (C Demo.empty). right. left. reflexivity.
  - apply (O Demo.checkout [Cases.plan] 7 Demo.start); [reflexivity|].
    left. reflexivity.
Defined.

(** ** More on the Subscription Locator and the status write *)

Lemma find_all_false {A : Type} (f : A -> bool) (l : list A) :
  (forall x, In x l -> f x = false) -> find f l = None.
Proof.
  induction l as [|a l IH]; simpl; intros H; [reflexivity|].
  rewrite (H a (or_introl eq_refl)). apply IH. intros x Hx. apply H. now right.
Qed.

(** The sorted array starts with the first of its latest elements. *)
Lemma sort_head_first_latest (before after : list wooSubscription) (s : wooSubscription) :
  (forall t, In t before -> date_created t < date_created s) ->
  (forall t, In t after -> date_created t <= date_created s) ->
  exists rest, Js.sort byDateDescending (before ++ s :: after) = s :: rest.
Proof.
  intros Hb Ha. induction before as [|b before IH]; simpl.
  - destruct (Js.sort byDateDescending after) as [|y r] eqn:E; simpl; [now eexists|].
    assert (Hy : In y after) by (apply (In_sort byDateDescending); rewrite E; now left).
    specialize (Ha y Hy). unfold byDateDescending at 1.
    destruct (Z.leb_spec (date_created y - date_created s) 0); [now eexists|lia].
  - destruct IH as [rest IH]; [intros t Ht; apply Hb; now right|].
    rewrite IH. simpl. unfold byDateDescending at 1.
    specialize (Hb b (or_introl eq_refl)).
    destruct (Z.leb_spec (date_created s - date_created b) 0); [lia|now eexists].
Qed.

Lemma wooStatus_table (status v : string) :
  In (status, v) statusMap -> wooStatus status = JStr v.
Proof.
  intros Hin. simpl in Hin.
  repeat (destruct Hin as [[= <- <-]|Hin]; [reflexivity|]).
  contradiction.
Qed.

Section Fallback.
Context {W : Type} (svc : Services W).

(** When no subscription carries the tag, the fallback takes, among the
    active subscriptions created last, the one that comes first in the
    answer of the back office: an active subscription with only earlier
    active ones before it and no later active one after it. *)
Theorem findWooSubscription_tie_break (id : string) (customerId : Z) (w w' : W)
    (before after : list wooSubscription) (s : wooSubscription) :
  getSubscriptions svc customerId w = (inr (Some (before ++ s :: after)%list), w') ->
  (forall t, In t (before ++ s :: after) -> ~ Tagged id t) ->
  Active s ->
  (forall t, In t before -> Active t -> date_created t < date_created s) ->
  (forall t, In t after -> Active t -> date_created t <= date_created s) ->
  result (findWooSubscription svc id customerId w) = inr (Some s).
Proof.
  intros H Hno Hs Hb Ha.
  rewrite (findWooSubscription_resolved svc id _ _ _ _ H). cbn [result data_of].
  rewrite find_all_false.
  - rewrite filter_app. cbn [filter].
    apply isActive_Active in Hs. rewrite Hs.
    destruct (sort_head_first_latest (filter isActive before) (filter isActive after) s)
      as [rest ->]; [| |reflexivity].
    + intros t Ht. apply filter_In in Ht as [Ht Hta]. apply Hb; [assumption|].
      now apply isActive_Active.
    + intros t Ht. apply filter_In in Ht as [Ht Hta]. apply Ha; [assumption|].
      now apply isActive_Active.
  - intros x Hx. destruct (hasSubscriptionTag id x) eqn:E; [|reflexivity].
    apply hasSubscriptionTag_Tagged in E. now destruct (Hno x Hx).
Qed.

(** An updated subscription that the locator matches: the handler's only
    write sets the matched subscription to the translation of the event's
    status, which for a status of the table is the mapped back-office
    status. *)
Theorem handleSubscriptionUpdated_writes_translation (sub : stripeSubscription) (w w1 : W)
    (sc : stripeCustomer) (c : customer) (woo : wooSubscription) :
  retrieveCustomer svc (stripe_subscription_customer sub) w = (inr sc, w1) ->
  result (findWooCustomerByEmail svc (stripe_customer_email sc) w1) = inr (Some c) ->
  result (findWooSubscription svc (stripe_subscription_id sub) (customer_ident c)
            (world (findWooCustomerByEmail svc (stripe_customer_email sc) w1)))
    = inr (Some woo) ->
  writes (calls (handleSubscriptionUpdated svc sub w)) =
    [ PutSubscription (subscription_id woo) (wooStatus (stripe_subscription_status sub)) ] /\
  (forall v, In (stripe_subscription_status sub, v) statusMap ->
             writes (calls (handleSubscriptionUpdated svc sub w)) =
               [ PutSubscription (subscription_id woo) (JStr v) ]).
Proof.
  intros Hr Hc Hs.
  rewrite (proj1 (handlers_matched svc sub w w1 sc c woo Hr Hc Hs)).
  split; [reflexivity|]. intros v Hv. now rewrite (wooStatus_table _ _ Hv).
Qed.

End Fallback.

Lemma findWooSubscription_tie_break_witness :
  date_created Cases.twin = date_created Demo.untagged /\
  result (findWooSubscription Demo.svc "sub_9" 7 Cases.twins) = inr (Some Cases.twin).
Proof.
  split; [reflexivity|].
  apply (findWooSubscription_tie_break Demo.svc "sub_9" 7 Cases.twins Cases.twins
           [Demo.tagged] [Demo.untagged] Cases.twin).
  - reflexivity.
  - intros t [<-|[<-|[<-|[]]]] H; apply hasSubscriptionTag_Tagged in H; discriminate.
  - reflexivity.
  - intros t [<-|[]] H. discriminate.
  - intros t [<-|[]] _. simpl. lia.
Defined.

Lemma handleSubscriptionUpdated_writes_translation_witness :
  writes (calls (handleSubscriptionUpdated Demo.svc Demo.sub_1 Demo.start)) =
    [ PutSubscription 31 (JStr "cancelled") ].
Proof.
  apply (proj2 (handleSubscriptionUpdated_writes_translation Demo.svc Demo.sub_1
                  Demo.start Demo.start
                  {| stripe_customer_email := Some "a@example.com"; stripe_customer_deleted := false |}
                  Demo.alice Demo.tagged eq_refl eq_refl eq_refl)).
  do 3 right. left. reflexivity.
Defined.

(** ** Cases of the earlier lemmas on the reference back office *)

Lemma processSubscriptionRenewal_order_refused_witness :
  processSubscriptionRenewal Cases.refusing Demo.in_1 Demo.sub_1 7 Demo.start =
    {| result := inl (Upstream "Service Unavailable");
       world := Demo.start;
       calls := [ GetSubscriptions 7;
                  PostOrders (renewalOrderData Demo.in_1 Demo.sub_1 7 Demo.tagged) ] |}.
Proof.
  apply (processSubscriptionRenewal_order_refused Cases.refusing Demo.in_1 Demo.sub_1 7
           Demo.start Demo.tagged "Service Unavailable" Demo.start);
    reflexivity.
Defined.

Lemma handleInvoicePaid_no_customer_witness :
  result (handleInvoicePaid Demo.svc Cases.in_2 Demo.start)
    = inl (Thrown "No WooCommerce customer found for email: nobody@example.com") /\
  writes (calls (handleInvoicePaid Demo.svc Cases.in_2 Demo.start)) = [].
Proof.
  apply (handleInvoicePaid_no_customer Demo.svc Cases.in_2 Demo.start Demo.start Demo.start
           Demo.sub_1 {| stripe_customer_email := Some "nobody@example.com"; stripe_customer_deleted := false |});
    reflexivity.
Defined.

Lemma handleInvoicePaid_skips_witness :
  result (handleInvoicePaid Demo.svc Demo.in_1 Demo.unsubscribed) = inr tt /\
  writes (calls (handleInvoicePaid Demo.svc Demo.in_1 Demo.unsubscribed)) = [].
Proof.
  apply (handleInvoicePaid_skips Demo.svc Demo.in_1 Demo.unsubscribed Demo.unsubscribed
           Demo.unsubscribed Demo.sub_1
           {| stripe_customer_email := Some "a@example.com"; stripe_customer_deleted := false |} Demo.alice);
    reflexivity.
Defined.

Lemma subscription_event_without_subscription_witness :
  result (dispatch Demo.svc (CustomerSubscriptionUpdated Demo.sub_1) Demo.unsubscribed)
    = inr tt /\
  writes (calls (dispatch Demo.svc (CustomerSubscriptionUpdated Demo.sub_1)
                   Demo.unsubscribed)) = [] /\
  result (stripeWebhook Demo.svc {| body := "updated"; stripe_signature := Some "valid" |}
            Demo.unsubscribed) = inr {| status_code := 200; response_body := Received |}.
Proof.
  destruct (subscription_event_without_subscription Demo.svc Demo.sub_1
              (CustomerSubscriptionUpdated Demo.sub_1) Demo.unsubscribed Demo.unsubscribed
              {| stripe_customer_email := Some "a@example.com"; stripe_customer_deleted := false |} Demo.alice
              (or_introl eq_refl) eq_refl eq_refl eq_refl) as [R [C D]].
  split; [exact R|split; [exact C|]]. apply D. reflexivity.
Defined.

(** ** The two handlers that create orders, end to end *)

Section EndToEnd.
Context {W : Type} (svc : Services W).

Lemma processSubscriptionRenewal_matched (inv : invoice) (sub : stripeSubscription)
    (customerId : Z) (w w2 : W) (woo : wooSubscription) (created : order) :
  result (findWooSubscription svc (stripe_subscription_id sub) customerId w) = inr (Some woo) ->
  postOrders svc (renewalOrderData inv sub customerId woo)
             (world (findWooSubscription svc (stripe_subscription_id sub) customerId w))
    = (inr created, w2) ->
  processSubscriptionRenewal svc inv sub customerId w =
    {| result := match fst (putSubscription svc (subscription_id woo) (JStr "active") w2) with
                 | inl m => inl (Upstream m)
                 | inr _ => inr (Some created)
                 end;
       world := snd (putSubscription svc (subscription_id woo) (JStr "active") w2);
       calls := [ GetSubscriptions customerId;
                  PostOrders (renewalOrderData inv sub customerId woo);
                  PutSubscription (subscription_id woo) (JStr "active") ] |}.
Proof.
  intros H P.
  assert (C := findWooSubscription_calls svc (stripe_subscription_id sub) customerId w).
  unfold processSubscriptionRenewal. rewrite try_catch_rethrow.
  unfold bind, await. cbv zeta. rewrite H. cbv beta iota. rewrite P. cbv beta iota.
  rewrite updateWooSubscriptionStatus_run. cbn [result world calls].
  change (wooStatus "active") with (JStr "active"). rewrite C.
  destruct (putSubscription svc (subscription_id woo) (JStr "active") w2) as [[m|r] w3];
    reflexivity.
Qed.

(** A paid invoice, end to end: with the processor's subscription and
    customer retrieved, the back-office customer found by the processor
    customer's email and a subscription matched, the handler's writes are
    the renewal order, posted for that back-office customer and tagged with
    the invoice and the retrieved subscription, and then, if the order is
    created, the status [active] on the matched subscription. *)
Theorem handleInvoicePaid_renews (inv : invoice) (w w1 w2 w3 : W) (sub : stripeSubscription)
    (sc : stripeCustomer) (c : customer) (woo : wooSubscription) (created : order) :
  retrieveSubscription svc (invoice_subscription inv) w = (inr sub, w1) ->
  retrieveCustomer svc (invoice_customer inv) w1 = (inr sc, w2) ->
  result (findWooCustomerByEmail svc (stripe_customer_email sc) w2) = inr (Some c) ->
  result (findWooSubscription svc (stripe_subscription_id sub) (customer_ident c)
            (world (findWooCustomerByEmail svc (stripe_customer_email sc) w2)))
    = inr (Some woo) ->
  postOrders svc (renewalOrderData inv sub (customer_ident c) woo)
    (world (findWooSubscription svc (stripe_subscription_id sub) (customer_ident c)
              (world (findWooCustomerByEmail svc (stripe_customer_email sc) w2))))
    = (inr created, w3) ->
  calls (handleInvoicePaid svc inv w) =
    [ StripeRetrieveSubscription (invoice_subscription inv);
      StripeRetrieveCustomer (invoice_customer inv);
      GetCustomers (stripe_customer_email sc);
      GetSubscriptions (customer_ident c);
      PostOrders (renewalOrderData inv sub (customer_ident c) woo);
      PutSubscription (subscription_id woo) (JStr "active") ] /\
  customer_id (renewalOrderData inv sub (customer_ident c) woo) = customer_ident c /\
  meta_data (renewalOrderData inv sub (customer_ident c) woo) =
    [ {| key := "stripe_invoice_id"; value := JStr (invoice_id inv) |};
      subscriptionTag (stripe_subscription_id sub);
      {| key := "is_renewal"; value := JStr "true" |} ].
Proof.
  intros Hs Hr Hc Hm Hp.
  assert (C : calls (findWooCustomerByEmail svc (stripe_customer_email sc) w2)
              = [GetCustomers (stripe_customer_email sc)])
    by now rewrite findWooCustomerByEmail_run.
  split; [|split; reflexivity].
  unfold handleInvoicePaid. rewrite try_catch_rethrow. unfold bind, await. cbv zeta.
  rewrite Hs. cbv beta iota. cbn [result world calls].
  rewrite Hr. cbv beta iota. cbn [result world calls].
  rewrite Hc. cbv beta iota.
  rewrite (processSubscriptionRenewal_matched inv sub (customer_ident c) _ w3 woo created
             Hm Hp).
  cbn [result world calls]. rewrite C.
  destruct (fst (putSubscription svc (subscription_id woo) (JStr "active") w3));
    reflexivity.
Qed.

(** A completed checkout, end to end: when the line items are listed, all
    mapped, and the Customer Reconciler resolves to a customer (found or
    just created), the session has contact details and the first call after
    the reconciler's is the creation of the order for that customer. *)
Theorem handleCheckoutCompleted_orders_for_customer (s : session) (w w1 : W)
    (items : list lineItem) (c : customer) :
  listLineItems svc (session_id s) w = (inr items, w1) ->
  result (getOrCreateWooCustomer svc (customer_details s) w1) = inr c ->
  (forall i, In i items -> Mapped i) ->
  exists d rest,
    customer_details s = Some d /\
    calls (handleCheckoutCompleted svc s w) =
      (StripeListLineItems (session_id s)
       :: calls (getOrCreateWooCustomer svc (customer_details s) w1)
       ++ PostOrders (checkoutOrderData s d (map mappedLineItem items) (customer_ident c))
       :: rest)%list /\
    writes rest = rest /\ (length rest <= 1)%nat.
Proof.
  intros Hl Hc Hm.
  destruct (getOrCreateWooCustomer_resolved svc _ _ _ Hc) as [d [Hd _]].
  exists d.
  set (w2 := world (getOrCreateWooCustomer svc (customer_details s) w1)).
  exists (tl (calls (createWooOrder svc s items (customer_ident c) w2))).
  split; [assumption|].
  assert (P := createWooOrder_posts svc s d items (customer_ident c) w2 Hd Hm).
  assert (R := createWooOrder_writes_only svc s items (customer_ident c) w2).
  assert (B := createWooOrder_budget svc s items (customer_ident c) w2).
  unfold writeCount in B. rewrite R in B.
  destruct (calls (createWooOrder svc s items (customer_ident c) w2)) as [|r rest] eqn:E;
    [discriminate|].
  injection P as ->. simpl in R, B. injection R as R.
  repeat split; [|exact R|simpl; lia].
  unfold handleCheckoutCompleted. rewrite try_catch_rethrow. unfold bind, await.
  rewrite Hl. cbn [result world calls]. rewrite Hc. fold w2.
  cbn [result world calls]. rewrite E.
  destruct (result (createWooOrder svc s items (customer_ident c) w2));
    cbn [calls app]; rewrite ?app_nil_r; reflexivity.
Qed.

End EndToEnd.

Lemma handleInvoicePaid_renews_witness :
  calls (handleInvoicePaid Demo.svc Demo.in_1 Demo.start) =
    [ StripeRetrieveSubscription "sub_1";
      StripeRetrieveCustomer "cus_1";
      GetCustomers (Some "a@example.com");
      GetSubscriptions 7;
      PostOrders (renewalOrderData Demo.in_1 Demo.sub_1 7 Demo.tagged);
      PutSubscription 31 (JStr "active") ].
Proof.
  apply (handleInvoicePaid_renews Demo.svc Demo.in_1 Demo.start Demo.start Demo.start
           (snd (Demo.demo_postOrders (renewalOrderData Demo.in_1 Demo.sub_1 7 Demo.tagged)
                                      Demo.start))
           Demo.sub_1 {| stripe_customer_email := Some "a@example.com"; stripe_customer_deleted := false |} Demo.alice
           Demo.tagged
           {| order_id := 100;
              order_status := "processing";
              order_line_items := [ {| product_id := Some 123; wooLineItem_quantity := 2 |} ];
              order_meta_data := meta_data (renewalOrderData Demo.in_1 Demo.sub_1 7
                                              Demo.tagged) |});
    reflexivity.
Defined.

Lemma handleCheckoutCompleted_orders_for_customer_witness :
  exists d rest,
    customer_details Demo.checkout = Some d /\
    calls (handleCheckoutCompleted Demo.svc Demo.checkout Demo.empty) =
      (StripeListLineItems "cs_1"
       :: calls (getOrCreateWooCustomer Demo.svc (Some Demo.details) Demo.empty)
       ++ PostOrders (checkoutOrderData Demo.checkout d (map mappedLineItem [Cases.plan]) 100)
       :: rest)%list /\
    writes rest = rest /\ (length rest <= 1)%nat.
Proof.
  apply (handleCheckoutCompleted_orders_for_customer Demo.svc Demo.checkout Demo.empty
           Demo.empty [Cases.plan]
           {| customer_ident := 100; customer_email := "a@example.com" |}).
  - reflexivity.
  - reflexivity.
  - intros i [<-|[]]. eexists. left. reflexivity.
Defined.

(** The email in the customer-not-found message: a deleted processor
    customer has no email field and prints as [undefined], a customer whose
    email is null prints as [null]. *)
Example customer_not_found_prints :
  result (dispatch Demo.svc (CustomerSubscriptionDeleted Cases.sub_3) Cases.ghosts)
    = inl (Thrown "No WooCommerce customer found for email: undefined") /\
  result (dispatch Demo.svc (CustomerSubscriptionUpdated Cases.sub_4) Cases.ghosts)
    = inl (Thrown "No WooCommerce customer found for email: null").
Proof. split; reflexivity. Qed.
